(** * pydantic2ts: schema cleaning, unification and output post-processing

    A shallow embedding of [backend/scripts/pydantic2ts.py].

    - Python dictionaries are association lists in insertion order (the
      order in which [.values()] iterates and [json.dumps] prints); a key
      occurs at most once in a Python dict, see [dict_wf].
    - JSON documents are trees: the schema that pydantic returns is plain
      JSON data.
    - In-place mutation is explicit state passing: a function that mutates
      its argument returns the argument's final state together with the
      exception it raised, if any.
    - The class objects' [model_config] dictionaries live in a heap indexed
      by class identity, because [generate_schema] mutates them.
    - pydantic's reflection ([create_model], [model_json_schema]), the
      module loader, [json.dumps], [shutil.which], [mkdtemp] and the
      external converter run by [os.system] are parameters.
    - Modules are objects in a graph, referred to by identity; the
      recursion of the two extraction functions carries a depth bound. *)

From Stdlib Require Import ZArith String Ascii List Bool Lia.
From stdpp Require Import base option list strings gmap pretty.

Local Open Scope string_scope.
Local Open Scope list_scope.

(* ===================================================================== *)
(** * Python dictionaries *)
(* ===================================================================== *)

Module PyDict.

Section Ops.
Context {V : Type}.

(** [d.get(k)]: the value bound to [k], if any. *)
Fixpoint dict_get (k : string) (d : list (string * V)) : option V :=
  match d with
  | [] => None
  | (k', v) :: rest => if String.eqb k' k then Some v else dict_get k rest
  end.

(** [k in d]. *)
Definition dict_contains (k : string) (d : list (string * V)) : bool :=
  match dict_get k d with Some _ => true | None => false end.

(** [d[k] = v]: an existing key keeps its position, a new key is
    appended. *)
Fixpoint dict_set (k : string) (v : V) (d : list (string * V))
  : list (string * V) :=
  match d with
  | [] => [(k, v)]
  | (k', v') :: rest =>
      if String.eqb k' k then (k', v) :: rest
      else (k', v') :: dict_set k v rest
  end.

(** [d.pop(k, None)] and, when [k] is bound, [del d[k]]: afterwards [k] is
    unbound. *)
Fixpoint dict_del (k : string) (d : list (string * V)) : list (string * V) :=
  match d with
  | [] => []
  | (k', v) :: rest =>
      if String.eqb k' k then dict_del k rest else (k', v) :: dict_del k rest
  end.

Definition dict_keys (d : list (string * V)) : list string := map fst d.
Definition dict_values (d : list (string * V)) : list V := map snd d.

(** The invariant of a Python dict: no key is bound twice. *)
Definition dict_wf (d : list (string * V)) : Prop := NoDup (dict_keys d).
End Ops.

End PyDict.
Export PyDict.

(* ===================================================================== *)
(** * JSON values and exceptions *)
(* ===================================================================== *)

#[warnings="-register-all"]
Inductive json : Type :=
| JNull
| JBool (b : bool)
| JInt (n : Z)
| JFloat (mantissa exponent : Z)
| JStr (s : string)
| JArr (items : list json)
| JObj (members : list (string * json)).

(** The exceptions the modelled code can raise or let through. *)
Inductive exn : Type :=
| KeyError (key : string)
| AttributeError
| TypeError
| UnboundLocalError (name : string)
| FileNotFoundError (path : string)
| RuntimeError (msg : string)
| Exception (msg : string)
| ExternalError (msg : string).

(* ===================================================================== *)
(** * SchemaCleaner: [clean_schema] *)
(* ===================================================================== *)

(** One iteration of the loop over [schema.get("properties", {}).values()]:
<<
    prop.pop("title", None)
    if "prefixItems" in prop:
        prop["items"] = prop["prefixItems"]
>>
    [prop.pop] exists with that arity only on a dict. *)
Definition clean_prop (prop : json) : exn + json :=
  match prop with
  | JObj p =>
      let p1 := dict_del "title" p in
      inr (JObj (match dict_get "prefixItems" p1 with
                 | Some v => dict_set "items" v p1
                 | None => p1
                 end))
  | JArr _ => inl TypeError
  | _ => inl AttributeError
  end.

(** The loop itself, in iteration order. It stops at the first exception;
    the properties already visited stay mutated. *)
Fixpoint clean_props (props : list (string * json))
  : list (string * json) * option exn :=
  match props with
  | [] => ([], None)
  | (k, v) :: rest =>
      match clean_prop v with
      | inl e => (props, Some e)
      | inr v' =>
          let '(rest', r) := clean_props rest in ((k, v') :: rest', r)
      end
  end.

(** <<
    if "enum" in schema and schema.get("description") == "An enumeration.":
        del schema["description"]
>> *)
Definition drop_enum_description (schema : list (string * json))
  : list (string * json) :=
  if dict_contains "enum" schema then
    match dict_get "description" schema with
    | Some (JStr s) =>
        if String.eqb s "An enumeration." then dict_del "description" schema
        else schema
    | _ => schema
    end
  else schema.

(** [clean_schema(schema, is_typeddict)]: the final state of [schema] and
    the exception raised, if any. *)
Definition clean_schema (schema : list (string * json)) (is_typeddict : bool)
  : list (string * json) * option exn :=
  let s1 := if is_typeddict
            then dict_set "additionalProperties" (JBool false) schema
            else schema in
  match dict_get "properties" s1 with
  | None => (drop_enum_description s1, None)
  | Some (JObj props) =>
      let '(props', r) := clean_props props in
      let s2 := dict_set "properties" (JObj props') s1 in
      match r with
      | Some e => (s2, Some e)
      | None => (drop_enum_description s2, None)
      end
  | Some _ => (s1, Some AttributeError)
  end.

(** The state in which the first statement of [clean_schema] leaves the
    schema. *)
Definition closed_if (b : bool) (s : list (string * json))
  : list (string * json) :=
  if b then dict_set "additionalProperties" (JBool false) s else s.

(* ===================================================================== *)
(** * OutputPostProcessor: [clean_output_file] *)
(* ===================================================================== *)

Definition LF : ascii := "010"%char.
Definition CR : ascii := "013"%char.
Definition nl : string := String LF EmptyString.

(** Text-mode reading translates the line endings CR LF and CR to LF. *)
Fixpoint universal_newlines (s : string) : string :=
  match s with
  | EmptyString => EmptyString
  | String c rest =>
      if Ascii.eqb c CR then
        match rest with
        | String c' rest' =>
            if Ascii.eqb c' LF then String LF (universal_newlines rest')
            else String LF (universal_newlines rest)
        | EmptyString => String LF EmptyString
        end
      else String c (universal_newlines rest)
  end.

(** The lines of a text, each with its terminator. *)
Fixpoint split_keepends (s : string) : list string :=
  match s with
  | EmptyString => []
  | String c rest =>
      if Ascii.eqb c LF then String c EmptyString :: split_keepends rest
      else match split_keepends rest with
           | [] => [String c EmptyString]
           | l :: ls => String c l :: ls
           end
  end.

(** [f.readlines()] on a file opened with mode "r". *)
Definition readlines (content : string) : list string :=
  split_keepends (universal_newlines content).

(** [line.rstrip("\r\n")]: drops every trailing CR and LF. *)
Fixpoint rstrip_crlf (s : string) : string :=
  match s with
  | EmptyString => EmptyString
  | String c rest =>
      match rstrip_crlf rest with
      | EmptyString =>
          if Ascii.eqb c CR || Ascii.eqb c LF then EmptyString
          else String c EmptyString
      | r => String c r
      end
  end.

Definition master_header : string := "export interface _Master_ {".
Definition closing_brace : string := "}".

Definition is_header (line : string) : bool :=
  String.eqb (rstrip_crlf line) master_header.
Definition is_closing (line : string) : bool :=
  String.eqb (rstrip_crlf line) closing_brace.

(** The marker loop; [i] is the index of the head of [lines], [start] the
    value of the variable [start] on entry.
<<
    for i, line in enumerate(lines):
        if line.rstrip("\r\n") == "export interface _Master_ {":
            start = i
        elif (start is not None) and line.rstrip("\r\n") == "}":
            end = i
            break
>> *)
Fixpoint scan_markers (lines : list string) (i : nat) (start : option nat)
  : option nat * option nat :=
  match lines with
  | [] => (start, None)
  | line :: rest =>
      if is_header line then scan_markers rest (S i) (Some i)
      else if bool_decide (is_Some start) && is_closing line then (start, Some i)
      else scan_markers rest (S i) start
  end.

Definition banner_comment_lines : list string :=
  [ "/* tslint:disable */" +:+ nl;
    "/* eslint-disable */" +:+ nl;
    "/**" +:+ nl;
    "/* This file was automatically generated from pydantic models by running pydantic2ts."
      +:+ nl;
    "/* Do not modify it by hand - just update the pydantic models and then re-run the script"
      +:+ nl;
    "*/" +:+ nl +:+ nl ].

(** [f.writelines(ls)]. *)
Definition writelines (ls : list string) : string :=
  String.concat EmptyString ls.

(** [clean_output_file(output_filename)] on a file system that maps a path
    to the text of the file there. [new_lines] is bound only when both
    markers were found. Opening the file with mode "w" empties it, and only
    then is [new_lines] read. *)
Definition clean_output_file (fs : gmap string string) (output_filename : string)
  : gmap string string * option exn :=
  match fs !! output_filename with
  | None => (fs, Some (FileNotFoundError output_filename))
  | Some content =>
      let lines := readlines content in
      let '(start, end_) := scan_markers lines 0 None in
      let new_lines :=
        match start, end_ with
        | Some s, Some e =>
            Some (banner_comment_lines ++ take s lines ++ drop (S e) lines)
        | _, _ => None
        end in
      let fs1 := <[output_filename := EmptyString]> fs in
      match new_lines with
      | None => (fs1, Some (UnboundLocalError "new_lines"))
      | Some ls => (<[output_filename := writelines ls]> fs1, None)
      end
  end.

(** ** The post-processor as the specification words it

    [start] is the index where the header first appears, [end] the index of
    the first closing-brace line after it. *)
Fixpoint first_index (p : string -> bool) (lines : list string) (i : nat)
  : option nat :=
  match lines with
  | [] => None
  | line :: rest => if p line then Some i else first_index p rest (S i)
  end.

Definition spec_markers (lines : list string) : option (nat * nat) :=
  match first_index is_header lines 0 with
  | None => None
  | Some s =>
      match first_index is_closing (drop (S s) lines) (S s) with
      | None => None
      | Some e => Some (s, e)
      end
  end.

Definition spec_cleaned_lines (lines : list string) : option (list string) :=
  match spec_markers lines with
  | Some (s, e) => Some (banner_comment_lines ++ take s lines ++ drop (S e) lines)
  | None => None
  end.

(* ===================================================================== *)
(** * Declarations and their configuration *)
(* ===================================================================== *)

(** The type of a declared field, as far as the schema depends on it. *)
#[warnings="-register-all"]
Inductive ftype : Type :=
| FInt
| FStr
| FTuple (elems : list ftype)
| FModel (id : nat) (name : string) (fields : list (string * ftype))
| FTypedDict (name : string) (fields : list (string * ftype)).

(** A pydantic model class (OpenableRecord). [pm_id] is the identity of the
    class object, [pm_name] its [__name__]. *)
Record pyd_model : Type := PydModel {
  pm_id : nat;
  pm_name : string;
  pm_fields : list (string * ftype)
}.

(** A TypedDict class (StructuralRecord); it has no [model_config]. *)
Record typed_dict : Type := TypedDictCls {
  td_name : string;
  td_fields : list (string * ftype)
}.

(** A value stored in a [model_config] dictionary. *)
Inductive cfgval : Type :=
| CNone
| CStr (s : string)
| CBool (b : bool)
| CStaticMethod (fn : string).

(** The class created by [create_model]. *)
Record model_class : Type := ModelClass {
  mc_name : string;
  mc_fields : list (string * (pyd_model + typed_dict));
  mc_config : list (string * cfgval)
}.

(** The [model_config] dictionary of every model class, by class identity.
    A class that never set one has the empty dictionary. *)
Definition model_config (h : gmap nat (list (string * cfgval))) (m : pyd_model)
  : list (string * cfgval) :=
  default [] (h !! pm_id m).

(** [m.model_config.get("extra", None)]. *)
Definition get_extra (h : gmap nat (list (string * cfgval))) (m : pyd_model)
  : cfgval :=
  default CNone (dict_get "extra" (model_config h m)).

(** [m.model_config["extra"] = v]. *)
Definition set_extra (h : gmap nat (list (string * cfgval))) (m : pyd_model)
    (v : cfgval) : gmap nat (list (string * cfgval)) :=
  <[pm_id m := dict_set "extra" v (model_config h m)]> h.

(** [v == "allow"]. *)
Definition is_allow (v : cfgval) : bool :=
  match v with CStr s => String.eqb s "allow" | _ => false end.

(** [v is not None]. *)
Definition is_not_none (v : cfgval) : bool :=
  match v with CNone => false | _ => true end.

(** The world outside the schema code: files by path, the directories that
    exist, and the heap of class configurations. *)
Record world : Type := World {
  w_files : gmap string string;
  w_dirs : gset string;
  w_heap : gmap nat (list (string * cfgval))
}.

(** What the program takes from its libraries and from the machine. *)
Class Platform : Type := {
  (** [create_model(name, **fields)]: the exception it raises, if any. *)
  create_model_raises :
    gmap nat (list (string * cfgval)) -> string ->
    list (string * (pyd_model + typed_dict)) -> option exn;
  (** [cls.model_json_schema()]; it reads the configurations. *)
  model_json_schema :
    gmap nat (list (string * cfgval)) -> model_class ->
    exn + list (string * json);
  (** [json.dumps(schema, indent=2)]. *)
  json_dumps : list (string * json) -> string;
  (** [extract_pydantic_models(import_module(module))]. *)
  find_pydantic_models : string -> exn + list pyd_model;
  (** [extract_typed_dicts(import_module(module))]. *)
  find_typed_dicts : string -> exn + list typed_dict;
  (** Whether [shutil.which(cmd)] finds an executable. *)
  shutil_which : string -> bool;
  (** [mkdtemp()]: the path of the directory it creates. *)
  mkdtemp : gset string -> string;
  (** [os.system(command)]: the status it returns and the files it leaves. *)
  os_system : string -> gmap string string -> Z * gmap string string
}.

(* ===================================================================== *)
(** * SchemaUnifier: [generate_schema] *)
(* ===================================================================== *)

(** <<
    for m in pyd_models:
        if m.model_config.get("extra", None) != "allow":
            m.model_config["extra"] = "forbid"
>> *)
Definition forbid_extra_step (h : gmap nat (list (string * cfgval)))
    (m : pyd_model) : gmap nat (list (string * cfgval)) :=
  if is_allow (get_extra h m) then h else set_extra h m (CStr "forbid").

Definition forbid_extras (h : gmap nat (list (string * cfgval)))
    (pyd_models : list pyd_model) : gmap nat (list (string * cfgval)) :=
  foldl forbid_extra_step h pyd_models.

(** [all_models = pyd_models + typed_dicts]. *)
Definition all_models_of (pyd_models : list pyd_model)
    (typed_dicts : list typed_dict) : list (pyd_model + typed_dict) :=
  map inl pyd_models ++ map inr typed_dicts.

(** [all_model_extras], read from the heap as it is when the line runs. *)
Definition all_model_extras_of (h : gmap nat (list (string * cfgval)))
    (pyd_models : list pyd_model) (typed_dicts : list typed_dict)
  : list cfgval :=
  map (get_extra h) pyd_models ++ replicate (length typed_dicts) CNone.

(** One iteration of the [finally] loop. Only a pydantic model is ever
    paired with a value that is not [None]. *)
Definition restore_step (h : gmap nat (list (string * cfgval)))
    (mx : (pyd_model + typed_dict) * cfgval)
  : gmap nat (list (string * cfgval)) :=
  match mx with
  | (inl m, x) => if is_not_none x then set_extra h m x else h
  | (inr _, _) => h
  end.

Definition restore_extras (h : gmap nat (list (string * cfgval)))
    (all_models : list (pyd_model + typed_dict)) (extras : list cfgval)
  : gmap nat (list (string * cfgval)) :=
  foldl restore_step h (zip all_models extras).

Definition decl_name (d : pyd_model + typed_dict) : string :=
  match d with inl m => pm_name m | inr td => td_name td end.

(** [{m.__name__: (m, ...) for m in all_models}]. *)
Definition master_fields (all_models : list (pyd_model + typed_dict))
  : list (string * (pyd_model + typed_dict)) :=
  foldl (fun acc d => dict_set (decl_name d) d acc) [] all_models.

(** [d["title"] in [td.__name__ for td in typed_dicts]]. *)
Definition title_is_typeddict (title : json) (typed_dicts : list typed_dict)
  : bool :=
  match title with
  | JStr s => existsb (String.eqb s) (map td_name typed_dicts)
  | _ => false
  end.

(** <<
    for d in schema.get("$defs", {}).values():
        clean_schema(d, is_typeddict=d["title"] in [...])
>>
    The state of the definitions when the loop ends or raises. *)
Fixpoint clean_defs (typed_dicts : list typed_dict)
    (defs : list (string * json)) : list (string * json) * option exn :=
  match defs with
  | [] => ([], None)
  | (k, JObj d) :: rest =>
      match dict_get "title" d with
      | None => (defs, Some (KeyError "title"))
      | Some t =>
          let '(d', r) := clean_schema d (title_is_typeddict t typed_dicts) in
          match r with
          | Some e => ((k, JObj d') :: rest, Some e)
          | None =>
              let '(rest', r') := clean_defs typed_dicts rest in
              ((k, JObj d') :: rest', r')
          end
      end
  | (k, _) :: rest => (defs, Some TypeError)
  end.

(** The class [master_model] once its configuration is set:
<<
    master_model = create_model("_Master_", **{...})
    master_model.model_config["extra"] = "forbid"
    master_model.model_config["json_schema_extra"] = staticmethod(clean_schema)
>> *)
Definition master_model_of (all_models : list (pyd_model + typed_dict))
  : model_class :=
  {| mc_name := "_Master_";
     mc_fields := master_fields all_models;
     mc_config :=
       dict_set "json_schema_extra" (CStaticMethod "clean_schema")
         (dict_set "extra" (CStr "forbid") []) |}.

(** The definition that a schema document binds to a name. *)
Definition definition_of (schema : list (string * json)) (name : string)
  : option (list (string * json)) :=
  match dict_get "$defs" schema with
  | Some (JObj defs) =>
      match dict_get name defs with
      | Some (JObj d) => Some d
      | _ => None
      end
  | _ => None
  end.

(** The policy that the override loop leaves for a policy [v]. *)
Definition forbid_unless_allow (v : cfgval) : cfgval :=
  if is_allow v then v else CStr "forbid".


(** The body of the [try] block up to the cleaned schema, on the heap as the
    override loop left it. *)
Definition generate_schema_try `{Platform}
    (h : gmap nat (list (string * cfgval)))
    (all_models : list (pyd_model + typed_dict))
    (typed_dicts : list typed_dict) : exn + list (string * json) :=
  match create_model_raises h "_Master_" (master_fields all_models) with
  | Some e => inl e
  | None =>
      match model_json_schema h (master_model_of all_models) with
      | inl e => inl e
      | inr schema =>
          match dict_get "$defs" schema with
          | None => inr schema
          | Some (JObj defs) =>
              match clean_defs typed_dicts defs with
              | (_, Some e) => inl e
              | (defs', None) => inr (dict_set "$defs" (JObj defs') schema)
              end
          | Some _ => inl AttributeError
          end
      end
  end.

(** The cleaned SchemaDocument of a call, before [json.dumps], and the heap
    the call leaves. *)
Definition generate_schema_document `{Platform}
    (h : gmap nat (list (string * cfgval)))
    (pyd_models : list pyd_model) (typed_dicts : list typed_dict)
  : gmap nat (list (string * cfgval)) * (exn + list (string * json)) :=
  let h1 := forbid_extras h pyd_models in
  let all_models := all_models_of pyd_models typed_dicts in
  let all_model_extras := all_model_extras_of h1 pyd_models typed_dicts in
  let r := generate_schema_try h1 all_models typed_dicts in
  (restore_extras h1 all_models all_model_extras, r).

(** [generate_schema(pyd_models, typed_dicts)]: the heap after the call and
    the string returned or the exception raised. *)
Definition generate_schema `{Platform}
    (h : gmap nat (list (string * cfgval)))
    (pyd_models : list pyd_model) (typed_dicts : list typed_dict)
  : gmap nat (list (string * cfgval)) * (exn + string) :=
  let '(h', r) := generate_schema_document h pyd_models typed_dicts in
  (h', match r with inl e => inl e | inr schema => inr (json_dumps schema) end).

(* ===================================================================== *)
(** * Orchestrator: [generate_typescript_defs] *)
(* ===================================================================== *)

Definition dquote : string := String (ascii_of_nat 34) EmptyString.

(** [" " in s]. *)
Fixpoint contains_space (s : string) : bool :=
  match s with
  | EmptyString => false
  | String c rest => Ascii.eqb c " "%char || contains_space rest
  end.

Fixpoint ends_with_slash (s : string) : bool :=
  match s with
  | EmptyString => false
  | String c EmptyString => Ascii.eqb c "/"%char
  | String _ rest => ends_with_slash rest
  end.

(** The prefix that every path below directory [dir] starts with. *)
Definition dir_prefix (dir : string) : string :=
  match dir with
  | EmptyString => EmptyString
  | _ => if ends_with_slash dir then dir else dir +:+ "/"
  end.

(** [os.path.join(dir, name)] for a relative [name]. *)
Definition os_path_join (dir name : string) : string := dir_prefix dir +:+ name.

(** [open(path, "w")] followed by [f.write(text)]. *)
Definition write_file (w : world) (path text : string) : world :=
  {| w_files := <[path := text]> (w_files w);
     w_dirs := w_dirs w;
     w_heap := w_heap w |}.

(** [shutil.rmtree(dir)]: the directory and every file below it go; a
    directory that does not exist is an error. *)
Definition rmtree (w : world) (dir : string) : world * option exn :=
  if bool_decide (dir ∈ w_dirs w) then
    ({| w_files :=
          filter (fun kv => String.prefix (dir_prefix dir) (fst kv) = false)
                 (w_files w);
        w_dirs := w_dirs w ∖ {[dir]};
        w_heap := w_heap w |}, None)
  else (w, Some (FileNotFoundError dir)).

(** [[m for m in models if m.__name__ not in exclude]]. *)
Definition not_excluded (exclude : list string) (name : string) : bool :=
  negb (existsb (String.eqb name) exclude).

Definition exclude_models (exclude : list string) (models : list pyd_model)
  : list pyd_model :=
  match exclude with
  | [] => models
  | _ => List.filter (fun m => not_excluded exclude (pm_name m)) models
  end.

Definition exclude_typed_dicts (exclude : list string)
    (typed_dicts : list typed_dict) : list typed_dict :=
  match exclude with
  | [] => typed_dicts
  | _ => List.filter (fun td => not_excluded exclude (td_name td)) typed_dicts
  end.

Definition json2ts_missing_msg : string :=
  "json2ts must be installed. Instructions can be found here: "
  +:+ "https://www.npmjs.com/package/json-schema-to-typescript".

(** The command line handed to [os.system]. *)
Definition json2ts_command (json2ts_cmd schema_file_path output : string)
  : string :=
  json2ts_cmd +:+ " -i " +:+ schema_file_path +:+ " -o " +:+ output
  +:+ " --bannerComment " +:+ dquote +:+ dquote.

(** The message of the [RuntimeError]. *)
Definition json2ts_failed_msg (json2ts_cmd : string) (code : Z) : string :=
  dquote +:+ json2ts_cmd +:+ dquote +:+ " failed with exit code "
  +:+ pretty code +:+ ".".

Definition with_files (w : world) (files : gmap string string) : world :=
  {| w_files := files; w_dirs := w_dirs w; w_heap := w_heap w |}.

(** The part of [generate_typescript_defs] after the schema is written to
    the temporary directory: run the converter, delete the directory, then
    post-process or raise. *)
Definition convert_and_clean `{Platform} (w : world)
    (schema_dir schema_file_path output json2ts_cmd : string)
  : world * option exn :=
  let '(json2ts_exit_code, files) :=
    os_system (json2ts_command json2ts_cmd schema_file_path output)
              (w_files w) in
  match rmtree (with_files w files) schema_dir with
  | (w', Some e) => (w', Some e)
  | (w', None) =>
      if (json2ts_exit_code =? 0)%Z then
        let '(files', r) := clean_output_file (w_files w') output in
        (with_files w' files', r)
      else
        (w', Some (RuntimeError (json2ts_failed_msg json2ts_cmd json2ts_exit_code)))
  end.

(** [generate_typescript_defs(module, output, exclude, json2ts_cmd,
    schema_only)]: the world after the call and the exception raised, if
    any. *)
Definition generate_typescript_defs `{Platform} (w : world)
    (module output : string) (exclude : list string) (json2ts_cmd : string)
    (schema_only : bool) : world * option exn :=
  if negb schema_only && negb (contains_space json2ts_cmd)
     && negb (shutil_which json2ts_cmd)
  then (w, Some (Exception json2ts_missing_msg))
  else
    match find_pydantic_models module with
    | inl e => (w, Some e)
    | inr models0 =>
        match find_typed_dicts module with
        | inl e => (w, Some e)
        | inr typed_dicts0 =>
            let models := exclude_models exclude models0 in
            let typed_dicts := exclude_typed_dicts exclude typed_dicts0 in
            let '(h', r) := generate_schema (w_heap w) models typed_dicts in
            let w1 := {| w_files := w_files w; w_dirs := w_dirs w;
                         w_heap := h' |} in
            match r with
            | inl e => (w1, Some e)
            | inr schema =>
                if schema_only then (write_file w1 output schema, None)
                else
                  let schema_dir := mkdtemp (w_dirs w1) in
                  let w2 := {| w_files := w_files w1;
                               w_dirs := w_dirs w1 ∪ {[schema_dir]};
                               w_heap := w_heap w1 |} in
                  let schema_file_path :=
                    os_path_join schema_dir "schema.json" in
                  let w3 := write_file w2 schema_file_path schema in
                  convert_and_clean w3 schema_dir schema_file_path output
                                    json2ts_cmd
            end
        end
    end.

(* ===================================================================== *)
(** * A reference platform *)
(* ===================================================================== *)

Module Reference.

(** The policy flag that a record definition carries for a configuration. *)
Definition policy_flag (cfg : list (string * cfgval)) : list (string * json) :=
  match dict_get "extra" cfg with
  | Some (CStr s) =>
      if String.eqb s "allow" then [("additionalProperties", JBool true)]
      else if String.eqb s "forbid" then [("additionalProperties", JBool false)]
      else []
  | _ => []
  end.

(** The schema of a type where it is used. *)
Fixpoint type_schema (t : ftype) : list (string * json) :=
  match t with
  | FInt => [("type", JStr "integer")]
  | FStr => [("type", JStr "string")]
  | FTuple elems =>
      [("maxItems", JInt (Z.of_nat (length elems)));
       ("minItems", JInt (Z.of_nat (length elems)));
       ("prefixItems", JArr (map (fun e => JObj (type_schema e)) elems));
       ("type", JStr "array")]
  | FModel _ name _ => [("$ref", JStr ("#/$defs/" +:+ name))]
  | FTypedDict name _ => [("$ref", JStr ("#/$defs/" +:+ name))]
  end.

(** The schema of a declared property: a display title unless the property
    is a reference. *)
Definition property_schema (fname : string) (t : ftype) : json :=
  match t with
  | FModel _ _ _ | FTypedDict _ _ => JObj (type_schema t)
  | _ => JObj (dict_set "title" (JStr fname) (type_schema t))
  end.

Definition record_schema (flag : list (string * json)) (name : string)
    (fields : list (string * ftype)) : json :=
  JObj (flag ++
        [("properties",
          JObj (map (fun ft => (fst ft, property_schema (fst ft) (snd ft))) fields));
         ("required", JArr (map (fun ft => JStr (fst ft)) fields));
         ("title", JStr name);
         ("type", JStr "object")]).

(** The definitions reachable from a type, outermost first. *)
Fixpoint type_defs (h : gmap nat (list (string * cfgval))) (t : ftype)
  : list (string * json) :=
  match t with
  | FInt | FStr => []
  | FTuple elems => flat_map (type_defs h) elems
  | FModel id name fields =>
      (name, record_schema (policy_flag (default [] (h !! id))) name fields)
      :: flat_map (fun ft => type_defs h (snd ft)) fields
  | FTypedDict name fields =>
      (name, record_schema [] name fields)
      :: flat_map (fun ft => type_defs h (snd ft)) fields
  end.

Definition decl_type (d : pyd_model + typed_dict) : ftype :=
  match d with
  | inl m => FModel (pm_id m) (pm_name m) (pm_fields m)
  | inr td => FTypedDict (td_name td) (td_fields td)
  end.

(** Modelled from the spec: the reflection capability of the record-type
    library (pydantic's [model_json_schema]), which is not part of this
    repository. For the aggregate it yields a root object schema plus a
    definitions mapping that covers every declaration reachable from the
    aggregate, one definition per declaration name. *)
Definition reflect (h : gmap nat (list (string * cfgval))) (c : model_class)
  : exn + list (string * json) :=
  let fields := map (fun f => (fst f, decl_type (snd f))) (mc_fields c) in
  let defs :=
    foldl (fun acc kd => dict_set (fst kd) (snd kd) acc) []
          (flat_map (fun ft => type_defs h (snd ft)) fields) in
  match record_schema (policy_flag (mc_config c)) (mc_name c) fields with
  | JObj root => inr (("$defs", JObj defs) :: root)
  | _ => inl TypeError
  end.

(** *** A serializer in the layout of [json.dumps(_, indent=2)] *)

Fixpoint pad (n : nat) : string :=
  match n with 0 => EmptyString | S n' => " " +:+ pad n' end.

Fixpoint escape (s : string) : string :=
  match s with
  | EmptyString => EmptyString
  | String c rest =>
      if Ascii.eqb c (ascii_of_nat 34) || Ascii.eqb c "\"%char
      then String "\"%char (String c (escape rest))
      else String c (escape rest)
  end.

Definition quoted (s : string) : string := dquote +:+ escape s +:+ dquote.

Definition block (open close : string) (ind : nat) (items : list string)
  : string :=
  match items with
  | [] => open +:+ close
  | _ =>
      open +:+ nl
      +:+ String.concat ("," +:+ nl) (map (fun i => pad (ind + 2) +:+ i) items)
      +:+ nl +:+ pad ind +:+ close
  end.

Fixpoint dumps (ind : nat) (j : json) : string :=
  match j with
  | JNull => "null"
  | JBool true => "true"
  | JBool false => "false"
  | JInt n => pretty n
  | JFloat m e => pretty m +:+ "e" +:+ pretty e
  | JStr s => quoted s
  | JArr items => block "[" "]" ind (map (dumps (ind + 2)) items)
  | JObj members =>
      block "{" "}" ind
        (map (fun kv => quoted (fst kv) +:+ ": " +:+ dumps (ind + 2) (snd kv))
             members)
  end.

(** *** Declarations of the examples *)

Definition User : pyd_model :=
  PydModel 0 "User" [("id", FInt); ("name", FStr)].
Definition Order : pyd_model :=
  PydModel 1 "Order"
    [("user", FModel 0 "User" [("id", FInt); ("name", FStr)]);
     ("size", FTuple [FInt; FInt])].
Definition Settings : pyd_model := PydModel 2 "Settings" [("theme", FStr)].
Definition Point : typed_dict := TypedDictCls "Point" [("x", FInt); ("y", FInt)].

(** [User] and [Order] leave the policy unset, [Settings] sets it to
    [allow]. *)
Definition heap0 : gmap nat (list (string * cfgval)) :=
  {[ 0 := []; 1 := []; 2 := [("extra", CStr "allow")] ]}.

Definition ts_output : string :=
  "export interface User {" +:+ nl +:+ "  id: number;" +:+ nl
  +:+ "}" +:+ nl
  +:+ "export interface _Master_ {" +:+ nl +:+ "  User: User;" +:+ nl
  +:+ "}" +:+ nl.

(** A stand-in for the converter: the command [json2ts] writes [ts_output]
    to [out.ts] and succeeds, [true] succeeds and writes nothing, any other
    command fails with wait status 256. *)
Definition run_command (command : string) (files : gmap string string)
  : Z * gmap string string :=
  if String.prefix "json2ts " command then (0%Z, <["out.ts" := ts_output]> files)
  else if String.prefix "true " command then (0%Z, files)
  else (256%Z, files).

Definition reference_platform : Platform := {|
  create_model_raises := fun _ _ _ => None;
  model_json_schema := reflect;
  json_dumps := fun schema => dumps 0 (JObj schema);
  find_pydantic_models := fun module =>
    if String.eqb module "app.models" then inr [User; Order; Settings]
    else inl (ExternalError "No module");
  find_typed_dicts := fun module =>
    if String.eqb module "app.models" then inr [Point]
    else inl (ExternalError "No module");
  shutil_which := fun cmd =>
    existsb (String.eqb cmd) ["json2ts"; "true"; "false"];
  mkdtemp := fun dirs =>
    if bool_decide ("/tmp/tmpa" ∈ dirs) then "/tmp/tmpb" else "/tmp/tmpa";
  os_system := run_command
|}.

Definition world0 : world :=
  {| w_files := ∅; w_dirs := ∅; w_heap := heap0 |}.

(** *** The documents of a run on [Order], [Settings] and [Point] *)

Definition result_or {A : Type} (dflt : A) (r : exn + A) : A :=
  match r with inr a => a | inl _ => dflt end.

Definition members_or_empty (j : option json) : list (string * json) :=
  match j with Some (JObj ms) => ms | _ => [] end.


(** The cleaned document of the same call. *)
Definition cleaned_document : list (string * json) :=
  result_or []
    (@generate_schema_document reference_platform heap0
       [Order; Settings] [Point]).2.

Definition cleaned_defs : list (string * json) :=
  members_or_empty (dict_get "$defs" cleaned_document).

(** The declared properties of a definition. *)
Definition properties_of (d : list (string * json)) : list (string * json) :=
  members_or_empty (dict_get "properties" d).

End Reference.

(** Declarations in which a model and a TypedDict share the name [Box]:
    the model [Box] sets the policy [allow], the model [Crate] has a field of
    type [Box], and [BoxDict] is a TypedDict whose [__name__] is [Box]
    too. *)
Module NameClash.



End NameClash.

(* ===================================================================== *)
(** * ModelDiscovery: [extract_pydantic_models], [extract_typed_dicts] *)
(* ===================================================================== *)

(** An object that is a member of a module. Module objects are referred to
    by identity, so that two modules can have each other as members. *)
Inductive pyobj : Type :=
| OModel (m : pyd_model)
| OBaseModel
| OTypedDict (td : typed_dict)
| OClass (name : string)
| OModule (id : nat)
| OValue.

(** A module: its [__name__] and what [inspect.getmembers(module)] lists,
    in that order. *)
Record py_module : Type := PyModule {
  mod_name : string;
  mod_members : list (string * pyobj)
}.

(** [is_submodule(obj, module_name)]:
<<
    inspect.ismodule(obj) and
    getattr(obj, "__name__", "").startswith(f"{module_name}.")
>> *)
Definition is_submodule (mods : gmap nat py_module) (obj : pyobj)
    (module_name : string) : bool :=
  match obj with
  | OModule id =>
      match mods !! id with
      | Some m => String.prefix (module_name +:+ ".") (mod_name m)
      | None => false
      end
  | _ => false
  end.

(** [is_concrete_pydantic_model(obj)]: a class, not [BaseModel] itself, and
    a subclass of [BaseModel]. *)
Definition is_concrete_pydantic_model (obj : pyobj) : bool :=
  match obj with
  | OModel _ => true
  | _ => false
  end.

(** [is_typed_dict(obj)]. *)
Definition is_typed_dict (obj : pyobj) : bool :=
  match obj with
  | OTypedDict _ => true
  | _ => false
  end.

(** [inspect.getmembers(module, predicate)]. *)
Definition getmembers (module : py_module) (predicate : pyobj -> bool)
  : list (string * pyobj) :=
  List.filter (fun kv => predicate (snd kv)) (mod_members module).

(** The two extraction functions have one body, up to the predicate that
    picks the members:
<<
    found = []
    module_name = module.__name__
    for _, obj in inspect.getmembers(module, predicate):
        found.append(obj)
    for _, submodule in inspect.getmembers(
        module, lambda obj: is_submodule(obj, module_name)
    ):
        found.extend(extract(submodule))
    return found
>>
    [fuel] bounds the depth of the recursion; [None] means that it ran
    out. *)
Fixpoint extract_objects (predicate : pyobj -> bool) (fuel : nat)
    (mods : gmap nat py_module) (module : py_module) : option (list pyobj) :=
  match fuel with
  | 0 => None
  | S fuel' =>
      foldl
        (fun acc kv =>
           match acc, snd kv with
           | Some found, OModule id =>
               match mods !! id with
               | Some submodule =>
                   match extract_objects predicate fuel' mods submodule with
                   | Some more => Some (found ++ more)
                   | None => None
                   end
               | None => Some found
               end
           | Some found, _ => Some found
           | None, _ => None
           end)
        (Some (map snd (getmembers module predicate)))
        (getmembers module
           (fun obj => is_submodule mods obj (mod_name module)))
  end.

(** [extract_pydantic_models(module)]. *)
Definition extract_pydantic_models :=
  extract_objects is_concrete_pydantic_model.

(** [extract_typed_dicts(module)]. *)
Definition extract_typed_dicts := extract_objects is_typed_dict.

(** One round of the second loop of [extract_objects], for a given way
    [rec] of searching a submodule. *)
Definition extend_found (mods : gmap nat py_module)
    (rec : py_module -> option (list pyobj))
    (acc : option (list pyobj)) (kv : string * pyobj) : option (list pyobj) :=
  match acc, snd kv with
  | Some found, OModule id =>
      match mods !! id with
      | Some submodule =>
          match rec submodule with
          | Some more => Some (found ++ more)
          | None => None
          end
      | None => Some found
      end
  | Some found, _ => Some found
  | None, _ => None
  end.

(** A module graph with a cycle: [app] and [app.models] have each other as
    members, and [app.models] also has the unrelated module [other]. *)
Module ReferenceModules.

Definition app_id : nat := 0.
Definition models_id : nat := 1.
Definition other_id : nat := 2.

Definition app : py_module :=
  PyModule "app"
    [("BaseModel", OBaseModel);
     ("User", OModel Reference.User);
     ("models", OModule models_id);
     ("version", OValue)].

Definition app_models : py_module :=
  PyModule "app.models"
    [("Order", OModel Reference.Order);
     ("Point", OTypedDict Reference.Point);
     ("User", OModel Reference.User);
     ("app", OModule app_id);
     ("other", OModule other_id)].

Definition other : py_module :=
  PyModule "other" [("Settings", OModel Reference.Settings)].

Definition modules : gmap nat py_module :=
  {[ app_id := app; models_id := app_models; other_id := other ]}.

End ReferenceModules.

(* ===================================================================== *)
(** * Predicates used in the statements *)
(* ===================================================================== *)

(** A string of CR and LF characters only. *)
Fixpoint all_crlf (s : string) : bool :=
  match s with
  | EmptyString => true
  | String c rest => (Ascii.eqb c CR || Ascii.eqb c LF) && all_crlf rest
  end.

Definition is_object (j : json) : bool :=
  match j with JObj _ => true | _ => false end.

(** A schema whose ["properties"], if present, is an object whose members
    are all objects. *)
Definition properties_ok (schema : list (string * json)) : bool :=
  match dict_get "properties" schema with
  | None => true
  | Some (JObj props) => forallb (fun kv => is_object (snd kv)) props
  | Some _ => false
  end.

(** A definition that the definitions loop can clean: an object with a
    title and with cleanable properties. *)
Definition definition_ok (j : json) : bool :=
  match j with
  | JObj d => bool_decide (is_Some (dict_get "title" d)) && properties_ok d
  | _ => false
  end.

(** A schema document whose ["$defs"], if present, is an object whose
    members the definitions loop can all clean. *)
Definition definitions_ok (schema : list (string * json)) : bool :=
  match dict_get "$defs" schema with
  | None => true
  | Some (JObj defs) => forallb (fun kv => definition_ok (snd kv)) defs
  | Some _ => false
  end.

(* ===================================================================== *)
(** * Facts about dictionaries *)
(* ===================================================================== *)

Section DictFacts.
Context {V : Type}.
Implicit Types (d : list (string * V)) (k : string) (v : V).

Lemma dict_get_set_eq k v d : dict_get k (dict_set k v d) = Some v.
Proof.
  induction d as [|[k' v'] d IH]; simpl.
  - by rewrite String.eqb_refl.
  - destruct (String.eqb k' k) eqn:E; simpl; rewrite E; auto.
Qed.

Lemma dict_get_set_ne k k' v d :
  k <> k' -> dict_get k' (dict_set k v d) = dict_get k' d.
Proof.
  intros Hne. induction d as [|[k0 v0] d IH]; simpl.
  - destruct (String.eqb_spec k k'); congruence.
  - destruct (String.eqb_spec k0 k) as [->|Hk]; simpl.
    + destruct (String.eqb_spec k k'); congruence.
    + destruct (String.eqb_spec k0 k'); auto.
Qed.

Lemma dict_get_del_eq k d : dict_get k (dict_del k d) = None.
Proof.
  induction d as [|[k' v'] d IH]; simpl; auto.
  destruct (String.eqb k' k) eqn:E; simpl; rewrite ?E; auto.
Qed.

Lemma dict_get_del_ne k k' d :
  k <> k' -> dict_get k' (dict_del k d) = dict_get k' d.
Proof.
  intros Hne. induction d as [|[k0 v0] d IH]; simpl; auto.
  destruct (String.eqb_spec k0 k) as [->|Hk]; simpl.
  - destruct (String.eqb_spec k k'); congruence.
  - destruct (String.eqb_spec k0 k'); auto.
Qed.

(** Writing the value that is already there changes nothing. *)
Lemma dict_set_id k v d : dict_get k d = Some v -> dict_set k v d = d.
Proof.
  induction d as [|[k' v'] d IH]; simpl; [discriminate|].
  destruct (String.eqb k' k) eqn:E; intros Hg.
  - congruence.
  - by rewrite IH.
Qed.

(** Deleting an unbound key changes nothing. *)
Lemma dict_del_id k d : dict_get k d = None -> dict_del k d = d.
Proof.
  induction d as [|[k' v'] d IH]; simpl; auto.
  destruct (String.eqb k' k) eqn:E; intros Hg; [discriminate|].
  by rewrite IH.
Qed.

Lemma dict_keys_set_present k v d :
  is_Some (dict_get k d) -> dict_keys (dict_set k v d) = dict_keys d.
Proof.
  induction d as [|[k' v'] d IH]; simpl.
  - intros [? ?]; discriminate.
  - destruct (String.eqb k' k) eqn:E; simpl; intros Hs; auto.
    f_equal. by apply IH.
Qed.

Lemma dict_get_None_keys k d : dict_get k d = None <-> k ∉ dict_keys d.
Proof.
  induction d as [|[k' v'] d IH]; simpl.
  - split; [intros _; apply not_elem_of_nil | done].
  - rewrite not_elem_of_cons.
    destruct (String.eqb_spec k' k) as [->|Hk].
    + split; [discriminate | intros [? _]; congruence].
    + rewrite IH. split; [intros ?; split; congruence | tauto].
Qed.

Lemma dict_keys_del_subseteq k d : dict_keys (dict_del k d) ⊆ dict_keys d.
Proof.
  induction d as [|[k' v'] d IH]; simpl; [done|].
  destruct (String.eqb k' k); simpl; intros x.
  - intros Hx. apply elem_of_cons. right. by apply IH.
  - rewrite !elem_of_cons.
    intros [->|Hx]; [by left | right; by apply IH].
Qed.

(** The dictionary operations keep keys unique. *)
Lemma dict_set_wf k v d : dict_wf d -> dict_wf (dict_set k v d).
Proof.
  unfold dict_wf.
  induction d as [|[k' v'] d IH]; simpl; intros Hwf.
  - apply NoDup_singleton.
  - destruct (String.eqb_spec k' k) as [->|Hk]; simpl; [done|].
    apply NoDup_cons in Hwf as [Hnin Hwf]. apply NoDup_cons. split; [|auto].
    destruct (dict_get k d) as [v0|] eqn:Hg.
    + rewrite dict_keys_set_present; [done | by eexists].
    + apply dict_get_None_keys. rewrite dict_get_set_ne by congruence.
      by apply dict_get_None_keys.
Qed.

Lemma dict_del_wf k d : dict_wf d -> dict_wf (dict_del k d).
Proof.
  unfold dict_wf.
  induction d as [|[k' v'] d IH]; simpl; intros Hwf; [done|].
  apply NoDup_cons in Hwf as [Hnin Hwf].
  destruct (String.eqb k' k); simpl; [auto|].
  apply NoDup_cons. split; [|auto].
  intros Hin. apply Hnin. by apply (dict_keys_del_subseteq k d).
Qed.

Lemma dict_get_elem_of k v d : dict_get k d = Some v -> (k, v) ∈ d.
Proof.
  induction d as [|[k' v'] d IH]; simpl; [discriminate|].
  destruct (String.eqb_spec k' k) as [->|Hk].
  - intros [= ->]. apply elem_of_cons; by left.
  - intros Hg. apply elem_of_cons; right; auto.
Qed.
End DictFacts.

(* ===================================================================== *)
(** * SchemaCleaner: properties of [clean_schema] *)
(* ===================================================================== *)

Section CleanerFacts.
Implicit Types (s d p : list (string * json)) (b : bool).

Lemma clean_prop_inv v v' :
  clean_prop v = inr v' ->
  exists p, v = JObj p /\
    v' = JObj (match dict_get "prefixItems" (dict_del "title" p) with
               | Some x => dict_set "items" x (dict_del "title" p)
               | None => dict_del "title" p
               end).
Proof. destruct v; simpl; intros [= <-]. eauto. Qed.

Lemma clean_prop_untitled v v' :
  clean_prop v = inr v' ->
  exists p', v' = JObj p' /\ dict_get "title" p' = None.
Proof.
  intros (p & -> & ->)%clean_prop_inv. eexists; split; [done|].
  destruct (dict_get "prefixItems" (dict_del "title" p)).
  - rewrite dict_get_set_ne by discriminate. apply dict_get_del_eq.
  - apply dict_get_del_eq.
Qed.

Lemma clean_prop_tuple v v' p x :
  clean_prop v = inr v' -> v = JObj p -> dict_get "prefixItems" p = Some x ->
  exists p', v' = JObj p' /\ dict_get "items" p' = Some x
             /\ dict_get "prefixItems" p' = Some x.
Proof.
  intros (p0 & -> & ->)%clean_prop_inv [= <-] Hx.
  rewrite dict_get_del_ne, Hx by discriminate.
  eexists; split; [done|]. split.
  - apply dict_get_set_eq.
  - rewrite dict_get_set_ne, dict_get_del_ne by discriminate. done.
Qed.

Lemma clean_prop_idem v v' : clean_prop v = inr v' -> clean_prop v' = inr v'.
Proof.
  intros (p & -> & ->)%clean_prop_inv. simpl.
  destruct (dict_get "prefixItems" (dict_del "title" p)) as [x|] eqn:Hx.
  - rewrite (dict_del_id "title") by
      (rewrite dict_get_set_ne by discriminate; apply dict_get_del_eq).
    rewrite dict_get_set_ne, Hx by discriminate.
    rewrite dict_set_id; [done | apply dict_get_set_eq].
  - rewrite (dict_del_id "title") by apply dict_get_del_eq.
    by rewrite Hx.
Qed.

Lemma clean_props_idem props props' r :
  clean_props props = (props', r) -> clean_props props' = (props', r).
Proof.
  revert props' r.
  induction props as [|[k v] props IH]; simpl; intros props' r.
  - by intros [= <- <-].
  - destruct (clean_prop v) as [e|v'] eqn:Hv.
    + intros [= <- <-]. simpl. by rewrite Hv.
    + destruct (clean_props props) as [rest' r0] eqn:Hrest.
      intros [= <- <-]. simpl.
      rewrite (clean_prop_idem _ _ Hv), (IH _ _ eq_refl). done.
Qed.

Lemma clean_props_lookup props props' k v :
  clean_props props = (props', None) -> dict_get k props = Some v ->
  exists v', clean_prop v = inr v' /\ dict_get k props' = Some v'.
Proof.
  revert props'.
  induction props as [|[k0 v0] props IH]; simpl; intros props'; [done|].
  destruct (clean_prop v0) as [e|v0'] eqn:Hv0; [done|].
  destruct (clean_props props) as [rest' r0] eqn:Hrest.
  intros [= <- ->]. simpl.
  destruct (String.eqb k0 k).
  - intros [= <-]. eauto.
  - intros Hg. by apply IH.
Qed.

Lemma clean_props_elem_of props props' k v' :
  clean_props props = (props', None) -> (k, v') ∈ props' ->
  exists v, (k, v) ∈ props /\ clean_prop v = inr v'.
Proof.
  revert props'.
  induction props as [|[k0 v0] props IH]; simpl; intros props'.
  - intros [= <-] Hin. by apply elem_of_nil in Hin.
  - destruct (clean_prop v0) as [e|v0'] eqn:Hv0; [done|].
    destruct (clean_props props) as [rest' r0] eqn:Hrest.
    intros [= <- ->]. rewrite elem_of_cons. intros [[= -> ->]|Hin].
    + exists v0. split; [apply elem_of_cons; by left | done].
    + destruct (IH _ eq_refl Hin) as (v & Hv & Hc).
      exists v. split; [apply elem_of_cons; by right | done].
Qed.

Lemma drop_enum_description_get k s :
  k <> "description" ->
  dict_get k (drop_enum_description s) = dict_get k s.
Proof.
  intros Hk. unfold drop_enum_description.
  destruct (dict_contains "enum" s); [|done].
  destruct (dict_get "description" s) as [[| | | |t| |]|]; try done.
  destruct (String.eqb t "An enumeration."); [|done].
  by rewrite dict_get_del_ne.
Qed.

Lemma drop_enum_description_cases s :
  drop_enum_description s = s
  \/ drop_enum_description s = dict_del "description" s.
Proof.
  unfold drop_enum_description.
  destruct (dict_contains "enum" s); [|by left].
  destruct (dict_get "description" s) as [[| | | |t| |]|]; try by left.
  destruct (String.eqb t "An enumeration."); [by right | by left].
Qed.

Lemma drop_enum_description_idem s :
  drop_enum_description (drop_enum_description s) = drop_enum_description s.
Proof.
  destruct (drop_enum_description_cases s) as [H|H]; rewrite H; [done|].
  unfold drop_enum_description. rewrite dict_get_del_eq.
  by destruct (dict_contains "enum" (dict_del "description" s)).
Qed.

Lemma closed_if_id b s :
  (b = true -> dict_get "additionalProperties" s = Some (JBool false)) ->
  closed_if b s = s.
Proof. destruct b; simpl; [|done]. intros H. by apply dict_set_id, H. Qed.

Lemma closed_if_get k b s :
  k <> "additionalProperties" -> dict_get k (closed_if b s) = dict_get k s.
Proof.
  intros Hk. destruct b; simpl; [|done].
  by rewrite dict_get_set_ne by congruence.
Qed.

Lemma closed_if_flag b s :
  b = true ->
  dict_get "additionalProperties" (closed_if b s) = Some (JBool false).
Proof. intros ->. apply dict_get_set_eq. Qed.

(** [clean_schema] touches three keys of the definition only. *)
Lemma clean_schema_get k s b :
  k <> "properties" -> k <> "description" ->
  dict_get k (clean_schema s b).1 = dict_get k (closed_if b s).
Proof.
  intros Hp Hd. unfold clean_schema. fold (closed_if b s).
  destruct (dict_get "properties" (closed_if b s)) as [j|]; simpl.
  2: by apply drop_enum_description_get.
  destruct j as [| | | | | |props]; try done.
  destruct (clean_props props) as [props' [e|]]; simpl.
  - by rewrite dict_get_set_ne by congruence.
  - rewrite drop_enum_description_get by done.
    by rewrite dict_get_set_ne by congruence.
Qed.




(** The properties of a successfully cleaned definition are the cleaned
    properties of the definition. *)
Lemma clean_schema_properties s b s' props' :
  clean_schema s b = (s', None) ->
  dict_get "properties" s' = Some (JObj props') ->
  exists props, dict_get "properties" s = Some (JObj props)
                /\ clean_props props = (props', None).
Proof.
  unfold clean_schema. fold (closed_if b s).
  rewrite <- (closed_if_get "properties" b s) by discriminate.
  destruct (dict_get "properties" (closed_if b s)) as [j|] eqn:Hj.
  - destruct j as [| | | | | |props]; try done.
    destruct (clean_props props) as [props0 [e|]] eqn:Hc; [done|].
    intros [= <-]. rewrite drop_enum_description_get by discriminate.
    rewrite dict_get_set_eq. intros [= <-]. eauto.
  - intros [= <-]. rewrite drop_enum_description_get by discriminate.
    by rewrite Hj.
Qed.

Lemma clean_schema_properties_fwd s b s' props :
  clean_schema s b = (s', None) ->
  dict_get "properties" s = Some (JObj props) ->
  exists props', dict_get "properties" s' = Some (JObj props')
                 /\ clean_props props = (props', None).
Proof.
  unfold clean_schema. fold (closed_if b s).
  rewrite <- (closed_if_get "properties" b s) by discriminate.
  intros Hc Hp. rewrite Hp in Hc.
  destruct (clean_props props) as [props0 [e|]] eqn:Hcp; [done|].
  injection Hc as <-. exists props0.
  rewrite drop_enum_description_get by discriminate.
  by rewrite dict_get_set_eq.
Qed.
End CleanerFacts.

(** ** Claims about [clean_schema] *)

(** C10. [clean_schema] is idempotent: cleaning a schema that was already
    cleaned with the same flag leaves it as it is and ends the same way
    (also when the call raises: the second call raises the same exception
    from the same state). *)
Theorem clean_schema_idempotent (s : list (string * json)) (b : bool) :
  clean_schema (clean_schema s b).1 b = clean_schema s b.
Proof.
  unfold clean_schema at 2 3. fold (closed_if b s).
  destruct (dict_get "properties" (closed_if b s)) as [j|] eqn:Hj.
  - destruct j as [| | | | | |props];
      try (simpl; unfold clean_schema; fold (closed_if b (closed_if b s));
           rewrite closed_if_id by (by apply closed_if_flag);
           by rewrite Hj).
    destruct (clean_props props) as [props' r] eqn:Hc.
    pose proof (clean_props_idem _ _ _ Hc) as Hc'.
    set (s2 := dict_set "properties" (JObj props') (closed_if b s)).
    assert (Hflag : b = true ->
                    dict_get "additionalProperties" s2 = Some (JBool false)).
    { intros Hb. unfold s2. rewrite dict_get_set_ne by discriminate.
      by apply closed_if_flag. }
    assert (Hs2 : dict_get "properties" s2 = Some (JObj props'))
      by apply dict_get_set_eq.
    destruct r as [e|]; simpl.
    + unfold clean_schema. fold (closed_if b s2).
      rewrite closed_if_id by done. rewrite Hs2, Hc'.
      by rewrite (dict_set_id _ _ _ Hs2).
    + unfold clean_schema. fold (closed_if b (drop_enum_description s2)).
      rewrite closed_if_id
        by (intros Hb; rewrite drop_enum_description_get by discriminate; auto).
      rewrite drop_enum_description_get, Hs2, Hc' by discriminate.
      rewrite dict_set_id
        by (by rewrite drop_enum_description_get by discriminate).
      by rewrite drop_enum_description_idem.
  - simpl. unfold clean_schema.
    fold (closed_if b (drop_enum_description (closed_if b s))).
    rewrite closed_if_id
      by (intros Hb; rewrite drop_enum_description_get by discriminate;
          by apply closed_if_flag).
    rewrite drop_enum_description_get, Hj by discriminate.
    by rewrite drop_enum_description_idem.
Qed.

(** C4, as the code has it. When [clean_schema] returns, every declared
    property that had a [prefixItems] key has an [items] key bound to the
    same value, and it still has its [prefixItems] key, unchanged. *)
Theorem clean_schema_copies_prefixItems
    (s s' props p : list (string * json)) (b : bool) (k : string) (v : json) :
  clean_schema s b = (s', None) ->
  dict_get "properties" s = Some (JObj props) ->
  dict_get k props = Some (JObj p) ->
  dict_get "prefixItems" p = Some v ->
  exists props' p',
    dict_get "properties" s' = Some (JObj props')
    /\ dict_get k props' = Some (JObj p')
    /\ dict_get "items" p' = Some v
    /\ dict_get "prefixItems" p' = Some v.
Proof.
  intros Hc Hp Hk Hv.
  destruct (clean_schema_properties_fwd _ _ _ _ Hc Hp) as (props' & Hp' & Hcp).
  destruct (clean_props_lookup _ _ _ _ Hcp Hk) as (v' & Hv' & Hk').
  destruct (clean_prop_tuple _ _ _ _ Hv' eq_refl Hv) as (p' & -> & Hi & Hpi).
  by exists props', p'.
Qed.

Lemma clean_schema_copies_prefixItems_witness :
  exists props' p',
    dict_get "properties"
      [("properties",
        JObj [("size", JObj [("prefixItems", JArr [JObj [("type", JStr "integer")]]);
                             ("type", JStr "array");
                             ("items", JArr [JObj [("type", JStr "integer")]])])]);
       ("title", JStr "Box")] = Some (JObj props')
    /\ dict_get "size" props' = Some (JObj p')
    /\ dict_get "items" p' = Some (JArr [JObj [("type", JStr "integer")]])
    /\ dict_get "prefixItems" p' = Some (JArr [JObj [("type", JStr "integer")]]).
Proof.
  apply (clean_schema_copies_prefixItems
           [("properties",
             JObj [("size", JObj [("title", JStr "Size");
                                  ("prefixItems", JArr [JObj [("type", JStr "integer")]]);
                                  ("type", JStr "array")])]);
            ("title", JStr "Box")]
           _
           [("size", JObj [("title", JStr "Size");
                           ("prefixItems", JArr [JObj [("type", JStr "integer")]]);
                           ("type", JStr "array")])]
           [("title", JStr "Size");
            ("prefixItems", JArr [JObj [("type", JStr "integer")]]);
            ("type", JStr "array")]
           false "size"); reflexivity.
Defined.

(** C4, counterexample. After cleaning, the property [size] of this
    definition still has its [prefixItems] key, so it has not stopped using
    the positional form. *)
Lemma prefixItems_survives_cleaning :
  exists s' props' p',
    clean_schema
      [("properties",
        JObj [("size", JObj [("prefixItems", JArr [JObj [("type", JStr "integer")]]);
                             ("type", JStr "array")])]);
       ("title", JStr "Box")] false = (s', None)
    /\ dict_get "properties" s' = Some (JObj props')
    /\ dict_get "size" props' = Some (JObj p')
    /\ dict_get "prefixItems" p' <> None.
Proof. do 3 eexists. repeat split; try reflexivity. discriminate. Qed.

(* ===================================================================== *)
(** * OutputPostProcessor: properties of [clean_output_file] *)
(* ===================================================================== *)

Section MarkerFacts.
Implicit Types (lines : list string) (i e s : nat).

Lemma header_not_closing l : is_header l = true -> is_closing l = false.
Proof.
  unfold is_header, is_closing.
  intros ->%String.eqb_eq. reflexivity.
Qed.

Lemma first_index_Some p lines i e :
  first_index p lines i = Some e ->
  i <= e
  /\ (exists l, lines !! (e - i) = Some l /\ p l = true)
  /\ (forall k l, i <= k < e -> lines !! (k - i) = Some l -> p l = false).
Proof.
  revert i. induction lines as [|line rest IH]; simpl; intros i; [done|].
  destruct (p line) eqn:Hp.
  - intros [= <-]. split; [lia|]. split.
    + exists line. by rewrite Nat.sub_diag.
    + intros k l Hk. lia.
  - intros Hf. destruct (IH _ Hf) as (Hle & (l & Hl & Hpl) & Hbefore).
    split; [lia|]. split.
    + exists l. split; [|done].
      replace (e - i) with (S (e - S i)) by lia. done.
    + intros k l' Hk Hl'. destruct (decide (k = i)) as [->|Hne].
      * rewrite Nat.sub_diag in Hl'. simpl in Hl'. congruence.
      * apply (Hbefore k); [lia|].
        replace (k - i) with (S (k - S i)) in Hl' by lia. done.
Qed.

Lemma first_index_None p lines i :
  first_index p lines i = None -> forall l, l ∈ lines -> p l = false.
Proof.
  revert i. induction lines as [|line rest IH]; simpl; intros i.
  - intros _ l Hl. by apply elem_of_nil in Hl.
  - destruct (p line) eqn:Hp; [done|].
    intros Hf l [->|Hl]%elem_of_cons; eauto.
Qed.

(** Before the first header the loop does nothing. *)
Lemma scan_markers_no_header lines i :
  first_index is_header lines i = None ->
  scan_markers lines i None = (None, None).
Proof.
  revert i. induction lines as [|line rest IH]; simpl; intros i; [done|].
  destruct (is_header line); [done|]. simpl. apply IH.
Qed.

Lemma scan_markers_to_header lines i i0 :
  first_index is_header lines i = Some i0 ->
  scan_markers lines i None
  = scan_markers (drop (S (i0 - i)) lines) (S i0) (Some i0).
Proof.
  revert i. induction lines as [|line rest IH]; simpl; intros i; [done|].
  destruct (is_header line) eqn:Hh.
  - intros [= <-]. by rewrite Nat.sub_diag, drop_0.
  - simpl. intros Hf. rewrite (IH _ Hf).
    apply first_index_Some in Hf as (Hle & _).
    replace (i0 - i) with (S (i0 - S i)) by lia. done.
Qed.

(** After a header, without a closing line the loop runs to the end and
    [end] stays unset. *)
Lemma scan_markers_no_closing lines i s0 :
  first_index is_closing lines i = None ->
  exists st, scan_markers lines i (Some s0) = (st, None).
Proof.
  revert i s0. induction lines as [|line rest IH]; simpl; intros i s0.
  - eauto.
  - destruct (is_closing line) eqn:Hc; [done|]. intros Hf.
    destruct (is_header line); [by apply IH|].
    destruct (bool_decide (is_Some (Some s0))); simpl; by apply IH.
Qed.

(** After a header, the loop stops at the first closing line; [start] is
    then the last header line before it. *)
Lemma scan_markers_started lines i s0 e :
  first_index is_closing lines i = Some e ->
  exists s,
    scan_markers lines i (Some s0) = (Some s, Some e)
    /\ ((s = s0 /\ forall k l, i <= k < e -> lines !! (k - i) = Some l ->
                                is_header l = false)
        \/ (i <= s < e
            /\ (exists l, lines !! (s - i) = Some l /\ is_header l = true)
            /\ forall k l, s < k < e -> lines !! (k - i) = Some l ->
                           is_header l = false)).
Proof.
  revert i s0. induction lines as [|line rest IH]; simpl; intros i s0; [done|].
  destruct (is_header line) eqn:Hh.
  - rewrite (header_not_closing _ Hh). intros Hf.
    destruct (IH _ i Hf) as (s & Hs & Hcases).
    pose proof (first_index_Some _ _ _ _ Hf) as (Hle & _).
    exists s. split; [done|]. right.
    destruct Hcases as [[-> Hnone]|(Hrange & (l & Hl & Hhl) & Hnone)].
    + split; [lia|]. split.
      * exists line. by rewrite Nat.sub_diag.
      * intros k l Hk Hl. apply (Hnone k); [lia|].
        replace (k - i) with (S (k - S i)) in Hl by lia. done.
    + split; [lia|]. split.
      * exists l. split; [|done].
        replace (s - i) with (S (s - S i)) by lia. done.
      * intros k l' Hk Hl'. apply (Hnone k); [lia|].
        replace (k - i) with (S (k - S i)) in Hl' by lia. done.
  - destruct (is_closing line) eqn:Hc; simpl.
    + intros [= <-]. exists s0. split; [done|]. left. split; [done|].
      intros k l Hk. lia.
    + intros Hf. destruct (IH (S i) s0 Hf) as (s & Hs & Hcases).
      pose proof (first_index_Some _ _ _ _ Hf) as (Hle & _).
      exists s. split; [done|].
      destruct Hcases as [[-> Hnone]|(Hrange & (l & Hl & Hhl) & Hnone)].
      * left. split; [done|]. intros k l Hk Hl.
        destruct (decide (k = i)) as [->|Hne].
        -- rewrite Nat.sub_diag in Hl. simpl in Hl. congruence.
        -- apply (Hnone k); [lia|].
           replace (k - i) with (S (k - S i)) in Hl by lia. done.
      * right. split; [lia|]. split.
        -- exists l. split; [|done].
           replace (s - i) with (S (s - S i)) by lia. done.
        -- intros k l' Hk Hl'. apply (Hnone k); [lia|].
           replace (k - i) with (S (k - S i)) in Hl' by lia. done.
Qed.

(** Without both markers, [end] or [start] stays unset. *)
Lemma scan_markers_unset lines :
  spec_markers lines = None ->
  exists st en, scan_markers lines 0 None = (st, en)
                /\ (st = None \/ en = None).
Proof.
  unfold spec_markers.
  destruct (first_index is_header lines 0) as [i0|] eqn:Hh.
  - destruct (first_index is_closing (drop (S i0) lines) (S i0)) as [e|] eqn:Hc;
      [done|]. intros _.
    rewrite (scan_markers_to_header _ _ _ Hh), Nat.sub_0_r.
    destruct (scan_markers_no_closing _ _ i0 Hc) as (st & Hst).
    exists st, None. auto.
  - intros _. exists None, None. split; [|auto].
    by apply scan_markers_no_header.
Qed.

(** With both markers, [end] is the first closing line after the first
    header and [start] the last header line before [end]. *)
Lemma scan_markers_found lines i0 e :
  spec_markers lines = Some (i0, e) ->
  exists s,
    scan_markers lines 0 None = (Some s, Some e)
    /\ i0 <= s < e
    /\ (exists l, lines !! s = Some l /\ is_header l = true)
    /\ (forall k l, s < k < e -> lines !! k = Some l -> is_header l = false).
Proof.
  unfold spec_markers.
  destruct (first_index is_header lines 0) as [i1|] eqn:Hh; [|done].
  destruct (first_index is_closing (drop (S i1) lines) (S i1)) as [e1|] eqn:Hc;
    [|done].
  intros [= -> ->].
  rewrite (scan_markers_to_header _ _ _ Hh), Nat.sub_0_r.
  destruct (scan_markers_started _ _ i0 _ Hc) as (s & Hs & Hcases).
  pose proof (first_index_Some _ _ _ _ Hc) as (Hle & _).
  pose proof (first_index_Some _ _ _ _ Hh) as (_ & (l0 & Hl0 & Hhl0) & _).
  rewrite Nat.sub_0_r in Hl0.
  assert (Hshift : forall k, S i0 <= k ->
            drop (S i0) lines !! (k - S i0) = lines !! k).
  { intros k Hk. rewrite lookup_drop. f_equal. lia. }
  exists s. split; [done|].
  destruct Hcases as [[-> Hnone]|(Hrange & (l & Hl & Hhl) & Hnone)].
  - split; [lia|]. split; [eauto|].
    intros k l Hk Hl. apply (Hnone k); [lia|]. by rewrite Hshift by lia.
  - split; [lia|]. split.
    + exists l. split; [|done]. by rewrite <- Hshift by lia.
    + intros k l' Hk Hl'. apply (Hnone k); [lia|]. by rewrite Hshift by lia.
Qed.
End MarkerFacts.

(** ** Claims about [clean_output_file] *)

(** C2, what the code does. On a file in which the header line or a
    closing-brace line after it is missing, [clean_output_file] raises
    [UnboundLocalError] for [new_lines], and it does so after it has emptied
    the file: the file is not left as it was. *)
Theorem clean_output_file_without_markers
    (fs : gmap string string) (path content : string) :
  fs !! path = Some content ->
  spec_markers (readlines content) = None ->
  clean_output_file fs path
  = (<[path := EmptyString]> fs, Some (UnboundLocalError "new_lines")).
Proof.
  intros Hfile Hnone. unfold clean_output_file. rewrite Hfile.
  destruct (scan_markers_unset _ Hnone) as (st & en & -> & [-> | ->]);
    [done|]. by destruct st.
Qed.

Lemma clean_output_file_without_markers_witness :
  clean_output_file
    {[ "out.ts" := "export interface User {" +:+ nl +:+ "}" +:+ nl ]} "out.ts"
  = (<["out.ts" := EmptyString]>
       {[ "out.ts" := "export interface User {" +:+ nl +:+ "}" +:+ nl ]},
     Some (UnboundLocalError "new_lines")).
Proof.
  apply (clean_output_file_without_markers _ _
           ("export interface User {" +:+ nl +:+ "}" +:+ nl));
    reflexivity.
Defined.

(** C5, as the code has it. On a file with a header line and a
    closing-brace line after it, [clean_output_file] returns and leaves the
    six banner lines, the lines before [start] and the lines after [end],
    where [end] is the first closing-brace line after the first header line
    and [start] is the last header line before [end] (the first one when no
    second header line comes before [end]). *)
Theorem clean_output_file_removes_block
    (fs : gmap string string) (path content : string) (i0 e : nat) :
  fs !! path = Some content ->
  spec_markers (readlines content) = Some (i0, e) ->
  exists s,
    i0 <= s < e
    /\ (exists l, readlines content !! s = Some l /\ is_header l = true)
    /\ (forall k l, s < k < e -> readlines content !! k = Some l ->
                    is_header l = false)
    /\ ((forall k l, i0 < k < e -> readlines content !! k = Some l ->
                     is_header l = false) -> s = i0)
    /\ clean_output_file fs path
       = (<[path := writelines (banner_comment_lines
                                 ++ take s (readlines content)
                                 ++ drop (S e) (readlines content))]> fs,
          None).
Proof.
  intros Hfile Hspec.
  destruct (scan_markers_found _ _ _ Hspec)
    as (s & Hscan & Hrange & (l & Hl & Hhl) & Hlast).
  exists s. split; [done|]. split; [eauto|]. split; [done|]. split.
  - intros Hone. destruct (decide (s = i0)) as [|Hne]; [done|].
    specialize (Hone s l ltac:(lia) Hl). congruence.
  - unfold clean_output_file. rewrite Hfile, Hscan.
    by rewrite insert_insert_eq.
Qed.

Lemma clean_output_file_removes_block_witness :
  exists s,
    3 <= s < 5
    /\ (exists l, readlines Reference.ts_output !! s = Some l
                  /\ is_header l = true)
    /\ (forall k l, s < k < 5 -> readlines Reference.ts_output !! k = Some l ->
                    is_header l = false)
    /\ ((forall k l, 3 < k < 5 -> readlines Reference.ts_output !! k = Some l ->
                     is_header l = false) -> s = 3)
    /\ clean_output_file {[ "out.ts" := Reference.ts_output ]} "out.ts"
       = (<["out.ts" := writelines (banner_comment_lines
                                 ++ take s (readlines Reference.ts_output)
                                 ++ drop (S 5) (readlines Reference.ts_output))]>
            {[ "out.ts" := Reference.ts_output ]},
          None).
Proof.
  apply (clean_output_file_removes_block _ _ Reference.ts_output 3 5);
    reflexivity.
Defined.

(** C5, counterexample. With a second header line before the closing
    brace, the lines kept before the block are those before the second
    header, not those before the first; and a file with no aggregate block
    is emptied with an exception, not given a banner. *)
Lemma clean_output_file_differs_from_spec :
  (exists ls,
     spec_cleaned_lines
       (readlines ("export interface _Master_ {" +:+ nl +:+ "  a: A;" +:+ nl
                   +:+ "export interface _Master_ {" +:+ nl +:+ "}" +:+ nl))
     = Some ls
     /\ (clean_output_file
           {[ "out.ts" :=
                "export interface _Master_ {" +:+ nl +:+ "  a: A;" +:+ nl
                +:+ "export interface _Master_ {" +:+ nl +:+ "}" +:+ nl ]}
           "out.ts").1 !! "out.ts"
        <> Some (writelines ls))
  /\ clean_output_file
       {[ "out.ts" := "export interface User {" +:+ nl +:+ "}" +:+ nl ]} "out.ts"
     = ({[ "out.ts" := EmptyString ]}, Some (UnboundLocalError "new_lines")).
Proof.
  split.
  - eexists. split; [reflexivity|]. vm_compute. discriminate.
  - reflexivity.
Qed.

(* ===================================================================== *)
(** * SchemaUnifier: properties of [generate_schema] *)
(* ===================================================================== *)

Section HeapFacts.
Implicit Types (h : gmap nat (list (string * cfgval))) (m : pyd_model).

Lemma get_extra_same_class h m m' :
  pm_id m = pm_id m' -> get_extra h m = get_extra h m'.
Proof. unfold get_extra, model_config. by intros ->. Qed.

Lemma get_extra_set_eq h m m' v :
  pm_id m = pm_id m' -> get_extra (set_extra h m v) m' = v.
Proof.
  intros Hid. unfold get_extra, set_extra, model_config at 1.
  rewrite <- Hid, lookup_insert_eq. simpl. by rewrite dict_get_set_eq.
Qed.

Lemma get_extra_set_ne h m m' v :
  pm_id m <> pm_id m' -> get_extra (set_extra h m v) m' = get_extra h m'.
Proof.
  intros Hid. unfold get_extra, set_extra, model_config.
  by rewrite lookup_insert_ne.
Qed.

Lemma forbid_unless_allow_idem v :
  forbid_unless_allow (forbid_unless_allow v) = forbid_unless_allow v.
Proof.
  unfold forbid_unless_allow. destruct (is_allow v) eqn:Hv; [by rewrite Hv|].
  done.
Qed.

Lemma is_allow_forbid_unless_allow v :
  is_allow (forbid_unless_allow v) = is_allow v.
Proof.
  unfold forbid_unless_allow. by destruct (is_allow v) eqn:Hv.
Qed.

Lemma forbid_extra_step_get h m m' :
  get_extra (forbid_extra_step h m) m'
  = if decide (pm_id m = pm_id m') then forbid_unless_allow (get_extra h m')
    else get_extra h m'.
Proof.
  unfold forbid_extra_step. destruct (decide (pm_id m = pm_id m')) as [Hid|Hid].
  - rewrite <- (get_extra_same_class h m m' Hid). unfold forbid_unless_allow.
    destruct (is_allow (get_extra h m)); [by apply get_extra_same_class|].
    by apply get_extra_set_eq.
  - destruct (is_allow (get_extra h m)); [done|]. by apply get_extra_set_ne.
Qed.

(** The override loop: every listed class ends with [allow] if it had
    [allow] and with [forbid] otherwise; other classes are untouched. *)
Lemma forbid_extras_get h pyd_models m' :
  get_extra (forbid_extras h pyd_models) m'
  = if decide (pm_id m' ∈ map pm_id pyd_models)
    then forbid_unless_allow (get_extra h m')
    else get_extra h m'.
Proof.
  unfold forbid_extras. revert h.
  induction pyd_models as [|m ms IH]; simpl; intros h.
  - done.
  - rewrite IH, forbid_extra_step_get.
    destruct (decide (pm_id m' ∈ map pm_id ms)) as [Hin|Hnin];
      destruct (decide (pm_id m = pm_id m')) as [Hid|Hid];
      destruct (decide (pm_id m' ∈ pm_id m :: map pm_id ms)) as [Hc|Hc];
      try done; try by rewrite forbid_unless_allow_idem.
    + exfalso. apply Hc, elem_of_cons. by right.
    + exfalso. apply Hc, elem_of_cons. by right.
    + exfalso. apply Hc, elem_of_cons. by left.
    + exfalso. apply elem_of_cons in Hc as [?|?]; congruence.
Qed.

Lemma forbid_extras_listed h pyd_models m :
  m ∈ pyd_models ->
  get_extra (forbid_extras h pyd_models) m
  = forbid_unless_allow (get_extra h m).
Proof.
  intros Hin. rewrite forbid_extras_get.
  case_decide as Hnin; [done|].
  exfalso. apply Hnin, list_elem_of_fmap. eauto.
Qed.

(** The [finally] loop writes into each configuration the value that is
    already there. *)
Lemma restore_step_same h m :
  restore_step h (inl m, get_extra h m) = h.
Proof.
  simpl. destruct (is_not_none (get_extra h m)) eqn:Hx; [|done].
  unfold set_extra, get_extra, model_config in *.
  destruct (h !! pm_id m) as [cfg|] eqn:Hcfg; simpl in *; [|done].
  destruct (dict_get "extra" cfg) as [x|] eqn:Hget; simpl in *; [|done].
  rewrite (dict_set_id _ _ _ Hget). by apply insert_id.
Qed.

Lemma restore_extras_same h pyd_models typed_dicts :
  restore_extras h (all_models_of pyd_models typed_dicts)
                 (all_model_extras_of h pyd_models typed_dicts) = h.
Proof.
  unfold restore_extras, all_models_of, all_model_extras_of.
  induction pyd_models as [|m ms IH]; simpl.
  - induction typed_dicts as [|td tds IHt]; simpl; done.
  - pose proof (restore_step_same h m) as Hs. simpl in Hs.
    rewrite Hs. apply IH.
Qed.
End HeapFacts.

Section DefsFacts.
Implicit Types (defs d : list (string * json)) (tds : list typed_dict).

Lemma clean_defs_elem_of tds defs defs' k v' :
  clean_defs tds defs = (defs', None) -> (k, v') ∈ defs' ->
  exists d t d',
    (k, JObj d) ∈ defs /\ dict_get "title" d = Some t
    /\ clean_schema d (title_is_typeddict t tds) = (d', None)
    /\ v' = JObj d'.
Proof.
  revert defs'.
  induction defs as [|[k0 v0] defs IH]; simpl; intros defs'.
  - intros [= <-] Hin. by apply elem_of_nil in Hin.
  - destruct v0 as [| | | | | |d0]; try done.
    destruct (dict_get "title" d0) as [t|] eqn:Ht; [|done].
    destruct (clean_schema d0 (title_is_typeddict t tds)) as [d0' [e|]] eqn:Hc;
      [done|].
    destruct (clean_defs tds defs) as [rest' r] eqn:Hrest.
    intros [= <- ->]. rewrite elem_of_cons. intros [[= -> ->]|Hin].
    + exists d0, t, d0'. split; [apply elem_of_cons; by left | done].
    + destruct (IH _ eq_refl Hin) as (d & t' & d' & Hd & Hrest').
      exists d, t', d'. split; [apply elem_of_cons; by right | done].
Qed.

Lemma clean_defs_lookup tds defs defs' k d :
  clean_defs tds defs = (defs', None) -> dict_get k defs = Some (JObj d) ->
  exists t d',
    dict_get "title" d = Some t
    /\ clean_schema d (title_is_typeddict t tds) = (d', None)
    /\ dict_get k defs' = Some (JObj d').
Proof.
  revert defs'.
  induction defs as [|[k0 v0] defs IH]; simpl; intros defs'; [done|].
  destruct v0 as [| | | | | |d0]; try done.
  destruct (dict_get "title" d0) as [t|] eqn:Ht; [|done].
  destruct (clean_schema d0 (title_is_typeddict t tds)) as [d0' [e|]] eqn:Hc;
    [done|].
  destruct (clean_defs tds defs) as [rest' r] eqn:Hrest.
  intros [= <- ->]. simpl. destruct (String.eqb k0 k).
  - intros [= <-]. eauto.
  - intros Hg. by apply IH.
Qed.

(** Cleaning neither adds nor removes a definition. *)
Lemma clean_defs_lookup_None tds defs defs' k :
  clean_defs tds defs = (defs', None) ->
  dict_get k defs = None -> dict_get k defs' = None.
Proof.
  revert defs'.
  induction defs as [|[k0 v0] defs IH]; simpl; intros defs'.
  - by intros [= <-].
  - destruct v0 as [| | | | | |d0]; try done.
    destruct (dict_get "title" d0) as [t|] eqn:Ht; [|done].
    destruct (clean_schema d0 (title_is_typeddict t tds)) as [d0' [e|]] eqn:Hc;
      [done|].
    destruct (clean_defs tds defs) as [rest' r] eqn:Hrest.
    intros [= <- ->]. simpl. destruct (String.eqb k0 k); [done|].
    intros Hg. by apply IH.
Qed.

Lemma clean_defs_all_objects tds defs defs' k v :
  clean_defs tds defs = (defs', None) -> dict_get k defs = Some v ->
  exists d, v = JObj d.
Proof.
  revert defs'.
  induction defs as [|[k0 v0] defs IH]; simpl; intros defs'; [done|].
  destruct v0 as [| | | | | |d0]; try done.
  destruct (dict_get "title" d0) as [t|] eqn:Ht; [|done].
  destruct (clean_schema d0 (title_is_typeddict t tds)) as [d0' [e|]] eqn:Hc;
    [done|].
  destruct (clean_defs tds defs) as [rest' r] eqn:Hrest.
  intros [= <- ->]. destruct (String.eqb k0 k).
  - intros [= <-]. eauto.
  - intros Hg. by eapply IH.
Qed.

End DefsFacts.

Section UnifierFacts.
Context `{Platform}.
Implicit Types (h : gmap nat (list (string * cfgval)))
               (models : list pyd_model) (tds : list typed_dict).

(** The [finally] loop leaves the heap as the override loop made it. *)
Lemma generate_schema_document_heap h models tds :
  (generate_schema_document h models tds).1 = forbid_extras h models.
Proof. unfold generate_schema_document. simpl. apply restore_extras_same. Qed.

Lemma generate_schema_heap h models tds :
  (generate_schema h models tds).1 = forbid_extras h models.
Proof.
  unfold generate_schema.
  pose proof (generate_schema_document_heap h models tds) as Hd.
  by destruct (generate_schema_document h models tds).
Qed.

(** A call that returns has cleaned each definition that reflection
    gave. *)
Lemma generate_schema_try_inv h all tds doc :
  generate_schema_try h all tds = inr doc ->
  exists raw,
    model_json_schema h (master_model_of all) = inr raw
    /\ ((dict_get "$defs" raw = None /\ doc = raw)
        \/ exists defs defs',
             dict_get "$defs" raw = Some (JObj defs)
             /\ clean_defs tds defs = (defs', None)
             /\ doc = dict_set "$defs" (JObj defs') raw).
Proof.
  unfold generate_schema_try.
  destruct (create_model_raises _ _ _); [done|].
  destruct (model_json_schema _ _) as [e|raw]; [done|].
  destruct (dict_get "$defs" raw) as [j|] eqn:Hdefs.
  - destruct j as [| | | | | |defs]; try done.
    destruct (clean_defs tds defs) as [defs' [e|]] eqn:Hc; [done|].
    intros [= <-]. exists raw. split; [done|]. right. eauto.
  - intros [= <-]. exists raw. split; [done|]. by left.
Qed.

Lemma generate_schema_document_defs h models tds doc defs' :
  (generate_schema_document h models tds).2 = inr doc ->
  dict_get "$defs" doc = Some (JObj defs') ->
  exists raw defs,
    model_json_schema (forbid_extras h models)
      (master_model_of (all_models_of models tds)) = inr raw
    /\ dict_get "$defs" raw = Some (JObj defs)
    /\ clean_defs tds defs = (defs', None).
Proof.
  unfold generate_schema_document. simpl.
  intros (raw & Hraw & Hcases)%generate_schema_try_inv Hdoc.
  exists raw.
  destruct Hcases as [[Hnone ->]|(defs & defs0 & Hdefs & Hc & ->)];
    [congruence|].
  rewrite dict_get_set_eq in Hdoc. injection Hdoc as ->. eauto.
Qed.
End UnifierFacts.

(** ** Claims about [generate_schema] *)

Section UnifierClaims.
Context `{Platform}.
Implicit Types (h : gmap nat (list (string * cfgval)))
               (models : list pyd_model) (tds : list typed_dict).

(** C1, what the code does. However the call ends, a listed model whose
    policy was not [allow] before the call (unset, or any other value) has
    the policy [forbid] after it: [all_model_extras] is read after the
    override loop has run, so the [finally] loop writes back the
    overridden values. *)
Theorem generate_schema_overwrites_policy h models tds (m : pyd_model) :
  m ∈ models ->
  is_allow (get_extra h m) = false ->
  get_extra (generate_schema h models tds).1 m = CStr "forbid".
Proof.
  intros Hin Hna. rewrite generate_schema_heap, forbid_extras_listed by done.
  unfold forbid_unless_allow. by rewrite Hna.
Qed.




(** C8. In the cleaned document no declared property of any definition
    has a [title] key. *)
Theorem cleaned_properties_untitled h models tds
    (doc defs' d' props' : list (string * json)) (k p : string) (pv : json) :
  (generate_schema_document h models tds).2 = inr doc ->
  dict_get "$defs" doc = Some (JObj defs') ->
  (k, JObj d') ∈ defs' ->
  dict_get "properties" d' = Some (JObj props') ->
  (p, pv) ∈ props' ->
  exists pd, pv = JObj pd /\ dict_get "title" pd = None.
Proof.
  intros Hdoc Hdefs Hin Hprops Hp.
  destruct (generate_schema_document_defs _ _ _ _ _ Hdoc Hdefs)
    as (raw & defs & _ & _ & Hc).
  destruct (clean_defs_elem_of _ _ _ _ _ Hc Hin)
    as (d & t & d0 & _ & _ & Hcs & [= <-]).
  destruct (clean_schema_properties _ _ _ _ Hcs Hprops) as (props & _ & Hcp).
  destruct (clean_props_elem_of _ _ _ _ Hcp Hp) as (v & _ & Hv).
  by apply clean_prop_untitled in Hv.
Qed.

Lemma master_fields_lookup_None (all : list (pyd_model + typed_dict)) name :
  (forall d, d ∈ all -> decl_name d <> name) ->
  dict_get name (master_fields all) = None.
Proof.
  unfold master_fields.
  assert (Hgen : forall (acc : list (string * (pyd_model + typed_dict))),
             dict_get name acc = None ->
             (forall d, d ∈ all -> decl_name d <> name) ->
             dict_get name
               (foldl (fun acc d => dict_set (decl_name d) d acc) acc all)
             = None).
  { induction all as [|d0 all IH]; simpl; intros acc Hacc Hall; [done|].
    apply IH.
    - rewrite dict_get_set_ne; [done|]. apply Hall, elem_of_cons. by left.
    - intros d Hd. apply Hall, elem_of_cons. by right. }
  by apply Hgen.
Qed.

Lemma not_excluded_name exclude name :
  name ∈ exclude -> not_excluded exclude name = false.
Proof.
  intros Hin. unfold not_excluded. apply negb_false_iff, existsb_exists.
  exists name. split; [by apply list_elem_of_In | apply String.eqb_refl].
Qed.

Lemma exclude_models_names exclude models (m : pyd_model) :
  m ∈ exclude_models exclude models -> pm_name m ∉ exclude.
Proof.
  unfold exclude_models. destruct exclude as [|x xs].
  - intros _. apply not_elem_of_nil.
  - intros [_ Hne]%list_elem_of_In%filter_In Hin.
    by rewrite (not_excluded_name _ _ Hin) in Hne.
Qed.

Lemma exclude_typed_dicts_names exclude tds (td : typed_dict) :
  td ∈ exclude_typed_dicts exclude tds -> td_name td ∉ exclude.
Proof.
  unfold exclude_typed_dicts. destruct exclude as [|x xs].
  - intros _. apply not_elem_of_nil.
  - intros [_ Hne]%list_elem_of_In%filter_In Hin.
    by rewrite (not_excluded_name _ _ Hin) in Hne.
Qed.

(** C3, as the code has it. No declaration with an excluded name is in
    the lists passed to unification, for either kind, and none is a field
    of the aggregate. The code removes no definition from the document:
    the cleaned document binds the excluded name exactly when reflection
    emitted a definition under it, as it does for a declaration that a
    remaining declaration refers to. *)
Theorem excluded_names_filtered (exclude : list string) models tds
    (name : string) :
  name ∈ exclude ->
  (forall m : pyd_model, m ∈ exclude_models exclude models -> pm_name m <> name)
  /\ (forall td : typed_dict,
        td ∈ exclude_typed_dicts exclude tds -> td_name td <> name)
  /\ dict_get name
       (master_fields (all_models_of (exclude_models exclude models)
                                     (exclude_typed_dicts exclude tds)))
     = None
  /\ forall h doc,
       (generate_schema_document h (exclude_models exclude models)
          (exclude_typed_dicts exclude tds)).2 = inr doc ->
       exists raw,
         model_json_schema
           (forbid_extras h (exclude_models exclude models))
           (master_model_of
              (all_models_of (exclude_models exclude models)
                             (exclude_typed_dicts exclude tds))) = inr raw
         /\ (definition_of doc name = None <-> definition_of raw name = None).
Proof.
  intros Hex.
  assert (Hm : forall m : pyd_model,
             m ∈ exclude_models exclude models -> pm_name m <> name).
  { intros m Hm Heq. apply (exclude_models_names _ _ _ Hm). by rewrite Heq. }
  assert (Ht : forall td : typed_dict,
             td ∈ exclude_typed_dicts exclude tds -> td_name td <> name).
  { intros td Htd Heq. apply (exclude_typed_dicts_names _ _ _ Htd).
    by rewrite Heq. }
  split; [done|]. split; [done|]. split.
  - apply master_fields_lookup_None. unfold all_models_of.
    intros d [Hd|Hd]%elem_of_app.
    + apply list_elem_of_fmap in Hd as (m & -> & Hin). by apply Hm.
    + apply list_elem_of_fmap in Hd as (td & -> & Hin). by apply Ht.
  - intros h doc Hdoc. unfold generate_schema_document in Hdoc.
    simpl in Hdoc.
    apply generate_schema_try_inv in Hdoc as (raw & Hraw & Hcases).
    exists raw. split; [done|].
    destruct Hcases as [[Hnone ->]|(defs & defs' & Hdefs & Hc & ->)]; [done|].
    unfold definition_of. rewrite dict_get_set_eq, Hdefs.
    destruct (dict_get name defs) as [v|] eqn:Hk.
    + destruct (clean_defs_all_objects _ _ _ _ _ Hc Hk) as (d & ->).
      destruct (clean_defs_lookup _ _ _ _ _ Hc Hk) as (t & d' & _ & _ & ->).
      done.
    + by rewrite (clean_defs_lookup_None _ _ _ _ Hc Hk).
Qed.
End UnifierClaims.

(** ** The claims on the reference platform *)

Lemma generate_schema_overwrites_policy_witness :
  get_extra Reference.heap0 Reference.User = CNone
  /\ get_extra
       (@generate_schema Reference.reference_platform Reference.heap0
          [Reference.User; Reference.Order] []).1 Reference.User
     = CStr "forbid".
Proof.
  split; [reflexivity|].
  apply (@generate_schema_overwrites_policy Reference.reference_platform
           Reference.heap0 [Reference.User; Reference.Order] [] Reference.User).
  - apply list_elem_of_here.
  - reflexivity.
Defined.




Lemma cleaned_properties_untitled_witness :
  exists pd,
    default JNull
      (dict_get "size"
         (Reference.properties_of
            (default [] (definition_of Reference.cleaned_document "Order"))))
    = JObj pd
    /\ dict_get "title" pd = None.
Proof.
  apply (@cleaned_properties_untitled Reference.reference_platform
           Reference.heap0 [Reference.Order; Reference.Settings]
           [Reference.Point] Reference.cleaned_document Reference.cleaned_defs
           (default [] (definition_of Reference.cleaned_document "Order"))
           (Reference.properties_of
              (default [] (definition_of Reference.cleaned_document "Order")))
           "Order" "size").
  - reflexivity.
  - reflexivity.
  - apply dict_get_elem_of. reflexivity.
  - reflexivity.
  - apply dict_get_elem_of. reflexivity.
Defined.

Lemma excluded_names_filtered_witness :
  dict_get "User"
    (master_fields
       (all_models_of
          (exclude_models ["User"]
             [Reference.User; Reference.Order; Reference.Settings])
          (exclude_typed_dicts ["User"] [Reference.Point])))
  = None.
Proof.
  apply (@excluded_names_filtered Reference.reference_platform ["User"]
           [Reference.User; Reference.Order; Reference.Settings]
           [Reference.Point] "User").
  apply list_elem_of_here.
Defined.

(** C3, counterexample. [User] is excluded and [Order], which is not, has a
    field of type [User]. With reflection as the specification describes it
    (the definitions cover every declaration reachable from the aggregate),
    the cleaned document still has a definition keyed [User]. *)
Lemma excluded_name_still_defined :
  exclude_models ["User"] [Reference.User; Reference.Order; Reference.Settings]
  = [Reference.Order; Reference.Settings]
  /\ exists doc d,
       (@generate_schema_document Reference.reference_platform Reference.heap0
          (exclude_models ["User"]
             [Reference.User; Reference.Order; Reference.Settings])
          (exclude_typed_dicts ["User"] [Reference.Point])).2 = inr doc
       /\ definition_of doc "User" = Some d.
Proof.
  split; [reflexivity|]. do 2 eexists. split; reflexivity.
Qed.

(* ===================================================================== *)
(** * Orchestrator: properties of [generate_typescript_defs] *)
(* ===================================================================== *)

Lemma prefix_append (p s : string) : String.prefix p (p +:+ s) = true.
Proof.
  induction p as [|a p IH]; simpl; [by destruct s|].
  destruct (ascii_dec a a); [done | congruence].
Qed.

Lemma schema_file_in_dir (dir name : string) :
  String.prefix (dir_prefix dir) (os_path_join dir name) = true.
Proof. apply prefix_append. Qed.

(** [clean_output_file] creates no file. *)
Lemma clean_output_file_lookup_None
    (fs : gmap string string) (output f : string) :
  fs !! f = None -> (clean_output_file fs output).1 !! f = None.
Proof.
  intros Hf. unfold clean_output_file.
  destruct (fs !! output) as [content|] eqn:Hout; [|done].
  assert (output <> f) by congruence.
  destruct (scan_markers (readlines content) 0 None) as [[s|] [e|]]; simpl;
    by rewrite ?lookup_insert_ne by done.
Qed.

Section OrchestratorClaims.
Context `{Platform}.

(** The steps after the schema file is written. *)
Lemma convert_and_clean_eq (w : world)
    (schema_dir schema_file_path output json2ts_cmd : string)
    (code : Z) (files' : gmap string string) :
  schema_dir ∈ w_dirs w ->
  os_system (json2ts_command json2ts_cmd schema_file_path output) (w_files w)
  = (code, files') ->
  let kept :=
    filter (fun kv => String.prefix (dir_prefix schema_dir) (fst kv) = false)
           files' in
  let w' := {| w_files := kept;
               w_dirs := w_dirs w ∖ {[schema_dir]};
               w_heap := w_heap w |} in
  convert_and_clean w schema_dir schema_file_path output json2ts_cmd
  = if (code =? 0)%Z
    then (with_files w' (fst (clean_output_file kept output)),
          snd (clean_output_file kept output))
    else (w', Some (RuntimeError (json2ts_failed_msg json2ts_cmd code))).
Proof.
  intros Hdir Hsys kept w'. unfold convert_and_clean. rewrite Hsys.
  unfold rmtree, with_files. cbn [w_files w_dirs w_heap].
  rewrite bool_decide_eq_true_2 by done. fold kept. fold w'.
  destruct (code =? 0)%Z; [|done].
  change (w_files w') with kept.
  by destruct (clean_output_file kept output).
Qed.

(** C9, as the code has it. In normal mode, once the converter has run,
    the temporary directory and the files below it are gone however the
    call ends. A status other than zero raises [RuntimeError] with the
    message built from the command and the status, and the files are
    those the converter left: the post-processor has not run. On status
    zero the orchestrator raises nothing itself and runs the
    post-processor: the call ends as [clean_output_file] ends, with its
    exception if it raises one. *)
Theorem converter_status_decides (w : world)
    (module output : string) (exclude : list string) (json2ts_cmd : string)
    (models0 : list pyd_model) (tds0 : list typed_dict)
    (h' : gmap nat (list (string * cfgval))) (schema : string)
    (code : Z) (files' : gmap string string) :
  contains_space json2ts_cmd || shutil_which json2ts_cmd = true ->
  find_pydantic_models module = inr models0 ->
  find_typed_dicts module = inr tds0 ->
  generate_schema (w_heap w) (exclude_models exclude models0)
                  (exclude_typed_dicts exclude tds0) = (h', inr schema) ->
  os_system
    (json2ts_command json2ts_cmd
       (os_path_join (mkdtemp (w_dirs w)) "schema.json") output)
    (<[os_path_join (mkdtemp (w_dirs w)) "schema.json" := schema]> (w_files w))
  = (code, files') ->
  let schema_dir := mkdtemp (w_dirs w) in
  let kept :=
    filter (fun kv => String.prefix (dir_prefix schema_dir) (fst kv) = false)
           files' in
  let r := generate_typescript_defs w module output exclude json2ts_cmd false in
  (schema_dir ∉ w_dirs (fst r))
  /\ (forall f, String.prefix (dir_prefix schema_dir) f = true ->
                w_files (fst r) !! f = None)
  /\ w_files (fst r) !! os_path_join schema_dir "schema.json" = None
  /\ (code <> 0%Z ->
      snd r = Some (RuntimeError (json2ts_failed_msg json2ts_cmd code))
      /\ w_files (fst r) = kept)
  /\ (code = 0%Z ->
      snd r = snd (clean_output_file kept output)
      /\ w_files (fst r) = fst (clean_output_file kept output)).
Proof.
  intros Hwhich Hmodels Htds Hschema Hsys schema_dir kept r.
  assert (Hkept : forall f, String.prefix (dir_prefix schema_dir) f = true ->
                            kept !! f = None).
  { intros f Hf. apply map_lookup_filter_None. right.
    intros x _. simpl. by rewrite Hf. }
  set (w' := {| w_files := kept;
                w_dirs := (w_dirs w ∪ {[schema_dir]}) ∖ {[schema_dir]};
                w_heap := h' |}).
  assert (Hr : r = if (code =? 0)%Z
                   then (with_files w' (fst (clean_output_file kept output)),
                         snd (clean_output_file kept output))
                   else (w', Some (RuntimeError
                                     (json2ts_failed_msg json2ts_cmd code)))).
  { unfold r, generate_typescript_defs.
    replace (negb false && negb (contains_space json2ts_cmd)
             && negb (shutil_which json2ts_cmd)) with false
      by (simpl; destruct (contains_space json2ts_cmd),
                   (shutil_which json2ts_cmd); done).
    rewrite Hmodels, Htds, Hschema. cbv beta iota zeta.
    apply convert_and_clean_eq; [|exact Hsys].
    cbn [w_dirs write_file]. set_solver. }
  assert (Hunder : forall f, String.prefix (dir_prefix schema_dir) f = true ->
                             w_files (fst r) !! f = None).
  { intros f Hf. rewrite Hr. destruct (code =? 0)%Z; simpl; [|by apply Hkept].
    by apply clean_output_file_lookup_None, Hkept. }
  split; [|split; [done|split; [|split]]].
  - rewrite Hr. destruct (code =? 0)%Z; simpl;
      rewrite elem_of_difference, elem_of_singleton; tauto.
  - apply Hunder, schema_file_in_dir.
  - intros Hne. apply Z.eqb_neq in Hne. by rewrite Hr, Hne.
  - intros ->. by rewrite Hr.
Qed.
End OrchestratorClaims.

Lemma converter_status_decides_witness :
  (@generate_typescript_defs Reference.reference_platform Reference.world0
     "app.models" "out.ts" [] "false" false).2
  = Some (RuntimeError (json2ts_failed_msg "false" 256))
  /\ "/tmp/tmpa"
     ∉ w_dirs (@generate_typescript_defs Reference.reference_platform
                 Reference.world0 "app.models" "out.ts" [] "false" false).1.
Proof.
  destruct (@converter_status_decides Reference.reference_platform
              Reference.world0 "app.models" "out.ts" [] "false"
              [Reference.User; Reference.Order; Reference.Settings]
              [Reference.Point]
              (forbid_extras Reference.heap0
                 [Reference.User; Reference.Order; Reference.Settings])
              (Reference.dumps 0
                 (JObj (Reference.result_or []
                    (@generate_schema_document Reference.reference_platform
                       Reference.heap0
                       [Reference.User; Reference.Order; Reference.Settings]
                       [Reference.Point]).2)))
              256%Z
              (<["/tmp/tmpa/schema.json" :=
                   Reference.dumps 0
                     (JObj (Reference.result_or []
                        (@generate_schema_document Reference.reference_platform
                           Reference.heap0
                           [Reference.User; Reference.Order; Reference.Settings]
                           [Reference.Point]).2))]> ∅))
    as (Hdir & _ & _ & Hfail & _).
  - reflexivity.
  - reflexivity.
  - reflexivity.
  - vm_compute. reflexivity.
  - vm_compute. reflexivity.
  - split; [apply Hfail; discriminate | exact Hdir].
Defined.

(** C9, counterexample. The command [true] returns status zero and writes
    no output file; the post-processor then fails to open the file and the
    call raises, although the converter reported success. *)
Lemma zero_status_call_raises :
  (os_system (Platform := Reference.reference_platform)
     (json2ts_command "true" "/tmp/tmpa/schema.json" "out.ts") ∅).1 = 0%Z
  /\ (@generate_typescript_defs Reference.reference_platform Reference.world0
        "app.models" "out.ts" [] "true" false).2
     = Some (FileNotFoundError "out.ts").
Proof. split; vm_compute; reflexivity. Qed.

(* ===================================================================== *)
(** * Further properties of [clean_schema] *)
(* ===================================================================== *)

Section CleanerMore.
Implicit Types (s d p props : list (string * json)) (b : bool).

Lemma clean_prop_object v :
  (exists v', clean_prop v = inr v') <-> is_object v = true.
Proof.
  destruct v; simpl; split; try done; try (intros [? ?]; done); eauto.
Qed.

Lemma clean_prop_error v e :
  clean_prop v = inl e -> e = AttributeError \/ e = TypeError.
Proof. destruct v; simpl; intros [= <-]; auto. Qed.

Lemma clean_props_returns props :
  (clean_props props).2 = None
  <-> forallb (fun kv => is_object (snd kv)) props = true.
Proof.
  induction props as [|[k v] props IH]; simpl; [done|].
  destruct (clean_prop v) as [e|v'] eqn:Hv.
  - split; [done|]. intros [Hobj _]%andb_prop.
    apply clean_prop_object in Hobj as [v' Hv']. congruence.
  - assert (is_object v = true) as -> by (apply clean_prop_object; eauto).
    destruct (clean_props props) as [rest' r]. simpl in *. done.
Qed.

Lemma clean_props_error props e :
  (clean_props props).2 = Some e -> e = AttributeError \/ e = TypeError.
Proof.
  induction props as [|[k v] props IH]; simpl; [done|].
  destruct (clean_prop v) as [e0|v'] eqn:Hv.
  - intros [= <-]. by eapply clean_prop_error.
  - destruct (clean_props props) as [rest' r]. simpl in *. done.
Qed.

Lemma clean_props_keys props :
  dict_keys (clean_props props).1 = dict_keys props.
Proof.
  induction props as [|[k v] props IH]; simpl; [done|].
  destruct (clean_prop v) as [e0|v']; [done|].
  destruct (clean_props props) as [rest' r]. simpl in *. by rewrite IH.
Qed.

(** The schema that [drop_enum_description] receives when [clean_schema]
    returns. *)
Lemma clean_schema_returns_form s b s' :
  clean_schema s b = (s', None) ->
  exists x, s' = drop_enum_description x
            /\ forall k, k <> "properties" ->
                 dict_get k x = dict_get k (closed_if b s).
Proof.
  unfold clean_schema. fold (closed_if b s).
  destruct (dict_get "properties" (closed_if b s)) as [j|].
  - destruct j as [| | | | | |props]; try done.
    destruct (clean_props props) as [props' [e|]]; [done|].
    intros [= <-]. eexists. split; [done|].
    intros k Hk. by rewrite dict_get_set_ne by congruence.
  - intros [= <-]. eauto.
Qed.

Lemma drop_enum_description_wf s :
  dict_wf s -> dict_wf (drop_enum_description s).
Proof.
  intros Hwf. destruct (drop_enum_description_cases s) as [-> | ->];
    [done | by apply dict_del_wf].
Qed.

Lemma clean_schema_outcome s b :
  (clean_schema s b).2 = None <-> properties_ok s = true.
Proof.
  unfold clean_schema, properties_ok. fold (closed_if b s).
  rewrite (closed_if_get "properties" b s) by discriminate.
  destruct (dict_get "properties" s) as [j|]; [|done].
  destruct j as [| | | | | |props]; try done.
  pose proof (clean_props_returns props) as Hret.
  by destruct (clean_props props) as [props' [e0|]].
Qed.

(** [clean_schema] returns exactly when ["properties"] is absent or is an
    object whose members are all objects; otherwise it raises
    [AttributeError] or [TypeError]. *)
Theorem clean_schema_returns_iff s b :
  ((clean_schema s b).2 = None <-> properties_ok s = true)
  /\ forall e, (clean_schema s b).2 = Some e ->
               e = AttributeError \/ e = TypeError.
Proof.
  split; [apply clean_schema_outcome|].
  unfold clean_schema. fold (closed_if b s).
  destruct (dict_get "properties" (closed_if b s)) as [j|]; [|done].
  destruct j as [| | | | | |props]; try (intros e [= <-]; auto).
  pose proof (clean_props_error props) as Herr.
  destruct (clean_props props) as [props' [e0|]]; simpl in *; [|done].
  intros e [= <-]. by apply Herr.
Qed.

(** When [clean_schema] returns on a definition with an ["enum"] key whose
    description is the boilerplate text, the description is gone. *)
Theorem enum_boilerplate_description_removed s b s' :
  clean_schema s b = (s', None) ->
  dict_contains "enum" s = true ->
  dict_get "description" s = Some (JStr "An enumeration.") ->
  dict_get "description" s' = None.
Proof.
  intros (x & -> & Hx)%clean_schema_returns_form Henum Hdesc.
  assert (Hxe : dict_contains "enum" x = true).
  { unfold dict_contains in *. rewrite Hx, closed_if_get by discriminate.
    done. }
  assert (Hxd : dict_get "description" x = Some (JStr "An enumeration.")).
  { by rewrite Hx, closed_if_get by discriminate. }
  unfold drop_enum_description. rewrite Hxe, Hxd. simpl.
  apply dict_get_del_eq.
Qed.

Lemma enum_boilerplate_description_removed_witness :
  dict_get "description"
    [("enum", JArr [JStr "red"; JStr "green"]); ("title", JStr "Colour");
     ("type", JStr "string")] = None.
Proof.
  apply (enum_boilerplate_description_removed
           [("description", JStr "An enumeration.");
            ("enum", JArr [JStr "red"; JStr "green"]);
            ("title", JStr "Colour"); ("type", JStr "string")] false);
    reflexivity.
Defined.

(** Any other description stays: without an ["enum"] key, or with a
    description that is not the boilerplate text, the ["description"] of the
    schema is what it was, however the call ends. *)
Theorem other_description_retained s b :
  dict_contains "enum" s = false
  \/ dict_get "description" s <> Some (JStr "An enumeration.") ->
  dict_get "description" (clean_schema s b).1 = dict_get "description" s.
Proof.
  intros Hcase.
  assert (Hdrop : forall x,
             dict_contains "enum" x = dict_contains "enum" s ->
             dict_get "description" x = dict_get "description" s ->
             dict_get "description" (drop_enum_description x)
             = dict_get "description" s).
  { intros x He Hd. unfold drop_enum_description. rewrite He.
    destruct (dict_contains "enum" s) eqn:Hs; [|done].
    destruct Hcase as [|Hne]; [done|]. rewrite Hd.
    destruct (dict_get "description" s) as [[| | | |t| |]|] eqn:Hds;
      try by rewrite Hd.
    destruct (String.eqb_spec t "An enumeration.") as [->|]; [done|].
    by rewrite Hd. }
  unfold clean_schema. fold (closed_if b s).
  destruct (dict_get "properties" (closed_if b s)) as [j|]; simpl.
  - destruct j as [| | | | | |props];
      try (simpl; apply closed_if_get; discriminate).
    destruct (clean_props props) as [props' [e|]]; simpl.
    + rewrite dict_get_set_ne by discriminate. apply closed_if_get.
      discriminate.
    + apply Hdrop.
      * unfold dict_contains.
        by rewrite dict_get_set_ne, closed_if_get by discriminate.
      * by rewrite dict_get_set_ne, closed_if_get by discriminate.
  - apply Hdrop.
    + unfold dict_contains. by rewrite closed_if_get by discriminate.
    + by rewrite closed_if_get by discriminate.
Qed.

Lemma other_description_retained_witness :
  dict_get "description"
    (clean_schema
       [("description", JStr "The colours of the rainbow.");
        ("enum", JArr [JStr "red"]); ("title", JStr "Colour")] false).1
  = Some (JStr "The colours of the rainbow.").
Proof.
  apply (other_description_retained
           [("description", JStr "The colours of the rainbow.");
            ("enum", JArr [JStr "red"]); ("title", JStr "Colour")] false).
  right. discriminate.
Defined.

(** [clean_schema] never touches a key of the definition other than
    ["properties"], ["description"] and ["additionalProperties"], and it
    leaves ["additionalProperties"] alone too when the flag is false. *)
Theorem clean_schema_frame s b k :
  k <> "properties" -> k <> "description" ->
  (k <> "additionalProperties" \/ b = false) ->
  dict_get k (clean_schema s b).1 = dict_get k s.
Proof.
  intros Hp Hd Hcase. rewrite clean_schema_get by done.
  destruct Hcase as [Ha | ->]; [by apply closed_if_get | done].
Qed.

Lemma clean_schema_frame_witness :
  dict_get "required"
    (clean_schema
       [("properties", JObj [("id", JObj [("title", JStr "Id")])]);
        ("required", JArr [JStr "id"]); ("title", JStr "User")] true).1
  = Some (JArr [JStr "id"]).
Proof.
  apply (clean_schema_frame
           [("properties", JObj [("id", JObj [("title", JStr "Id")])]);
            ("required", JArr [JStr "id"]); ("title", JStr "User")]
           true "required"); try discriminate.
  left. discriminate.
Defined.

(** Of a declared property, [clean_schema] changes the keys ["title"] and
    ["items"] only, and ["items"] only when the property has
    ["prefixItems"]; a property with neither ["title"] nor ["prefixItems"]
    is left as it is. *)
Theorem clean_schema_property_frame s b s' props p (k : string) :
  clean_schema s b = (s', None) ->
  dict_get "properties" s = Some (JObj props) ->
  dict_get k props = Some (JObj p) ->
  exists props' p',
    dict_get "properties" s' = Some (JObj props')
    /\ dict_get k props' = Some (JObj p')
    /\ (forall key, key <> "title" -> key <> "items" ->
                    dict_get key p' = dict_get key p)
    /\ (dict_get "prefixItems" p = None ->
        dict_get "items" p' = dict_get "items" p)
    /\ (dict_get "title" p = None -> dict_get "prefixItems" p = None ->
        p' = p).
Proof.
  intros Hc Hp Hk.
  destruct (clean_schema_properties_fwd _ _ _ _ Hc Hp) as (props' & Hp' & Hcp).
  destruct (clean_props_lookup _ _ _ _ Hcp Hk) as (v' & Hv' & Hk').
  apply clean_prop_inv in Hv' as (p0 & [= <-] & ->).
  eexists props', _. split; [done|]. split; [exact Hk'|].
  rewrite (dict_get_del_ne "title" "prefixItems") by discriminate.
  split; [|split].
  - intros key Ht Hi. destruct (dict_get "prefixItems" p).
    + by rewrite dict_get_set_ne, dict_get_del_ne by congruence.
    + by rewrite dict_get_del_ne by congruence.
  - intros ->. by rewrite dict_get_del_ne by discriminate.
  - intros Ht ->. by apply dict_del_id.
Qed.

Lemma clean_schema_property_frame_witness :
  exists props' p',
    dict_get "properties"
      [("properties",
        JObj [("id", JObj [("type", JStr "integer")]);
              ("user", JObj [("$ref", JStr "#/$defs/User")])]);
       ("title", JStr "Order")] = Some (JObj props')
    /\ dict_get "user" props' = Some (JObj p')
    /\ (forall key, key <> "title" -> key <> "items" ->
                    dict_get key p'
                    = dict_get key [("$ref", JStr "#/$defs/User")])
    /\ (dict_get "prefixItems" [("$ref", JStr "#/$defs/User")] = None ->
        dict_get "items" p' = dict_get "items" [("$ref", JStr "#/$defs/User")])
    /\ (dict_get "title" [("$ref", JStr "#/$defs/User")] = None ->
        dict_get "prefixItems" [("$ref", JStr "#/$defs/User")] = None ->
        p' = [("$ref", JStr "#/$defs/User")]).
Proof.
  apply (clean_schema_property_frame
           [("properties",
             JObj [("id", JObj [("title", JStr "Id"); ("type", JStr "integer")]);
                   ("user", JObj [("$ref", JStr "#/$defs/User")])]);
            ("title", JStr "Order")]
           false _
           [("id", JObj [("title", JStr "Id"); ("type", JStr "integer")]);
            ("user", JObj [("$ref", JStr "#/$defs/User")])]
           [("$ref", JStr "#/$defs/User")] "user"); reflexivity.
Defined.

(** [clean_schema] keeps the keys of the definition unique, and it keeps
    the names and the order of the declared properties, however the call
    ends. *)
Theorem clean_schema_keeps_shape s b props :
  dict_wf s ->
  dict_get "properties" s = Some (JObj props) ->
  dict_wf (clean_schema s b).1
  /\ exists props',
       dict_get "properties" (clean_schema s b).1 = Some (JObj props')
       /\ dict_keys props' = dict_keys props.
Proof.
  intros Hwf Hp. unfold clean_schema. fold (closed_if b s).
  assert (Hwf1 : dict_wf (closed_if b s))
    by (destruct b; simpl; [by apply dict_set_wf | done]).
  rewrite (closed_if_get "properties" b s), Hp by discriminate.
  pose proof (clean_props_keys props) as Hkeys.
  destruct (clean_props props) as [props' [e|]]; simpl in *.
  - split; [by apply dict_set_wf|]. exists props'.
    by rewrite dict_get_set_eq.
  - split; [by apply drop_enum_description_wf, dict_set_wf|].
    exists props'. rewrite drop_enum_description_get by discriminate.
    by rewrite dict_get_set_eq.
Qed.

Lemma clean_schema_keeps_shape_witness :
  dict_wf
    (clean_schema
       [("properties",
         JObj [("b", JObj [("title", JStr "B")]); ("a", JInt 1)]);
        ("title", JStr "T")] true).1
  /\ exists props',
       dict_get "properties"
         (clean_schema
            [("properties",
              JObj [("b", JObj [("title", JStr "B")]); ("a", JInt 1)]);
             ("title", JStr "T")] true).1 = Some (JObj props')
       /\ dict_keys props' = ["b"; "a"].
Proof.
  apply (clean_schema_keeps_shape
           [("properties",
             JObj [("b", JObj [("title", JStr "B")]); ("a", JInt 1)]);
            ("title", JStr "T")] true
           [("b", JObj [("title", JStr "B")]); ("a", JInt 1)]).
  - apply (@bool_decide_unpack (NoDup ["properties"; "title"]) _).
    reflexivity.
  - reflexivity.
Defined.
End CleanerMore.

(* ===================================================================== *)
(** * Further properties of [clean_output_file] *)
(* ===================================================================== *)

Section PostProcessorMore.

Lemma append_cons (c : ascii) (s t : string) :
  String c s +:+ t = String c (s +:+ t).
Proof. reflexivity. Qed.

Lemma append_nil_l (t : string) : EmptyString +:+ t = t.
Proof. reflexivity. Qed.

Lemma append_nil_r (s : string) : s +:+ EmptyString = s.
Proof.
  induction s as [|c s IH]; [done|]. by rewrite append_cons, IH.
Qed.

Lemma concat_empty_cons (x : string) (xs : list string) :
  String.concat EmptyString (x :: xs) = x +:+ String.concat EmptyString xs.
Proof.
  destruct xs as [|y ys].
  - symmetry. apply append_nil_r.
  - change (String.concat EmptyString (x :: y :: ys))
      with (x +:+ EmptyString +:+ String.concat EmptyString (y :: ys)).
    by rewrite append_nil_l.
Qed.

Lemma split_keepends_nil (s : string) : split_keepends s = [] -> s = EmptyString.
Proof.
  destruct s as [|c rest]; simpl; [done|].
  destruct (Ascii.eqb c LF); [done|]. by destruct (split_keepends rest).
Qed.

Lemma concat_split_keepends (s : string) :
  String.concat EmptyString (split_keepends s) = s.
Proof.
  induction s as [|c rest IH]; [done|].
  cbn [split_keepends]. destruct (Ascii.eqb c LF).
  - by rewrite concat_empty_cons, IH.
  - destruct (split_keepends rest) as [|l ls] eqn:Hsplit.
    + by apply split_keepends_nil in Hsplit as ->.
    + rewrite concat_empty_cons in *. by rewrite <- IH.
Qed.

Lemma split_keepends_nonempty (s : string) :
  Forall (fun l => l <> EmptyString) (split_keepends s).
Proof.
  induction s as [|c rest IH]; simpl; [constructor|].
  destruct (Ascii.eqb c LF); [by constructor|].
  destruct (split_keepends rest) as [|l ls]; [by repeat constructor|].
  apply Forall_cons in IH as [_ IH]. by constructor.
Qed.

(** Writing back the lines that were read gives the text of the file with
    its line endings translated to LF, and no line read is empty. *)
Theorem writelines_readlines (content : string) :
  writelines (readlines content) = universal_newlines content
  /\ Forall (fun l => l <> EmptyString) (readlines content).
Proof.
  split; [apply concat_split_keepends | apply split_keepends_nonempty].
Qed.

Lemma rstrip_crlf_all_crlf (t : string) :
  all_crlf t = true -> rstrip_crlf t = EmptyString.
Proof.
  induction t as [|c t IH]; [done|]. cbn [all_crlf rstrip_crlf].
  intros [Hc Ht]%andb_prop. by rewrite (IH Ht), Hc.
Qed.

Lemma rstrip_crlf_append (r t : string) :
  all_crlf t = true -> rstrip_crlf (r +:+ t) = rstrip_crlf r.
Proof.
  intros Ht. induction r as [|c r IH].
  - rewrite append_nil_l. by apply rstrip_crlf_all_crlf.
  - rewrite append_cons. cbn [rstrip_crlf]. by rewrite IH.
Qed.

Lemma rstrip_crlf_decompose (s : string) :
  exists t, all_crlf t = true /\ s = rstrip_crlf s +:+ t.
Proof.
  induction s as [|c s (t & Ht & Hs)].
  - by exists EmptyString.
  - cbn [rstrip_crlf]. destruct (rstrip_crlf s) as [|c' r] eqn:Hr.
    + rewrite append_nil_l in Hs. subst s.
      destruct (Ascii.eqb c CR || Ascii.eqb c LF) eqn:Hc.
      * exists (String c t). split; [|by rewrite append_nil_l].
        cbn [all_crlf]. by rewrite Hc, Ht.
      * by exists t.
    + exists t. split; [done|]. rewrite append_cons. by rewrite <- Hs.
Qed.

Lemma rstrip_crlf_eq (l marker : string) :
  rstrip_crlf marker = marker ->
  rstrip_crlf l = marker
  <-> exists t, all_crlf t = true /\ l = marker +:+ t.
Proof.
  intros Hm. split.
  - intros Hl. destruct (rstrip_crlf_decompose l) as (t & Ht & Hdec).
    exists t. by rewrite <- Hl.
  - intros (t & Ht & ->). by rewrite rstrip_crlf_append.
Qed.

(** The marker lines of [clean_output_file]: a line is taken for the
    header, or for the closing brace, exactly when it is that text followed
    by CR and LF characters only; indentation or a trailing blank makes it
    an ordinary line. *)
Theorem marker_lines (l : string) :
  (is_header l = true
   <-> exists t, all_crlf t = true /\ l = master_header +:+ t)
  /\ (is_closing l = true
      <-> exists t, all_crlf t = true /\ l = closing_brace +:+ t).
Proof.
  unfold is_header, is_closing. rewrite !String.eqb_eq.
  split; by apply rstrip_crlf_eq.
Qed.

(** [clean_output_file] neither creates nor deletes a file, and it leaves
    every file other than the one it is given as it was, however the call
    ends. *)
Theorem clean_output_file_other_files
    (fs : gmap string string) (output f : string) :
  f <> output ->
  (clean_output_file fs output).1 !! f = fs !! f
  /\ dom (clean_output_file fs output).1 = dom fs.
Proof.
  intros Hne. unfold clean_output_file.
  destruct (fs !! output) as [content|] eqn:Hout; [|done].
  assert (Hins : forall y (m : gmap string string),
             dom m = dom fs -> dom (<[output := y]> m) = dom fs).
  { intros y m Hm. rewrite dom_insert_L, Hm. apply subseteq_union_1_L.
    apply singleton_subseteq_l, elem_of_dom. eauto. }
  assert (Hdom : forall x y, dom (<[output := x]> (<[output := y]> fs)) = dom fs
                             /\ dom (<[output := y]> fs) = dom fs).
  { intros x y. split; [apply Hins|]; by apply Hins. }
  destruct (scan_markers (readlines content) 0 None) as [[s|] [e|]]; simpl;
    rewrite ?lookup_insert_ne by done; split; try done;
    try apply (Hdom EmptyString EmptyString); apply Hdom.
Qed.

Lemma clean_output_file_other_files_witness :
  (clean_output_file
     {[ "out.ts" := Reference.ts_output; "notes.txt" := "keep" ]}
     "out.ts").1 !! "notes.txt"
  = ({[ "out.ts" := Reference.ts_output; "notes.txt" := "keep" ]}
       : gmap string string) !! "notes.txt"
  /\ dom (clean_output_file
            {[ "out.ts" := Reference.ts_output; "notes.txt" := "keep" ]}
            "out.ts").1
     = dom ({[ "out.ts" := Reference.ts_output; "notes.txt" := "keep" ]}
              : gmap string string).
Proof.
  apply (clean_output_file_other_files
           {[ "out.ts" := Reference.ts_output; "notes.txt" := "keep" ]}
           "out.ts" "notes.txt").
  discriminate.
Defined.
End PostProcessorMore.

(* ===================================================================== *)
(** * Further properties of [generate_schema] *)
(* ===================================================================== *)

Section UnifierMore.
Context `{Platform}.
Implicit Types (h : gmap nat (list (string * cfgval)))
               (models : list pyd_model) (tds : list typed_dict).

Lemma model_config_set_extra h m0 m v :
  model_config (set_extra h m0 v) m
  = if decide (pm_id m0 = pm_id m)
    then dict_set "extra" v (model_config h m)
    else model_config h m.
Proof.
  unfold set_extra, model_config. case_decide as Hid.
  - by rewrite Hid, lookup_insert_eq.
  - by rewrite lookup_insert_ne.
Qed.

Lemma forbid_extras_other_keys h models m k :
  k <> "extra" ->
  dict_get k (model_config (forbid_extras h models) m)
  = dict_get k (model_config h m).
Proof.
  intros Hk. unfold forbid_extras. revert h.
  induction models as [|m0 ms IH]; simpl; intros h; [done|].
  rewrite IH. unfold forbid_extra_step.
  destruct (is_allow (get_extra h m0)); [done|].
  rewrite model_config_set_extra. case_decide; [|done].
  by rewrite dict_get_set_ne by congruence.
Qed.

Lemma forbid_extras_unlisted h models m :
  pm_id m ∉ map pm_id models ->
  model_config (forbid_extras h models) m = model_config h m.
Proof.
  unfold forbid_extras. revert h.
  induction models as [|m0 ms IH]; simpl; intros h Hnin; [done|].
  apply not_elem_of_cons in Hnin as [Hne Hnin].
  rewrite IH by done. unfold forbid_extra_step.
  destruct (is_allow (get_extra h m0)); [done|].
  rewrite model_config_set_extra. case_decide; [congruence | done].
Qed.

(** What [generate_schema] leaves of the configurations, however the call
    ends: every key other than ["extra"] of every class, the whole
    configuration of a class that is not listed, and the policy of a class
    whose policy was [allow]. *)
Theorem generate_schema_config_frame h models tds (m : pyd_model) :
  (forall k, k <> "extra" ->
     dict_get k (model_config (generate_schema h models tds).1 m)
     = dict_get k (model_config h m))
  /\ (pm_id m ∉ map pm_id models ->
      model_config (generate_schema h models tds).1 m = model_config h m)
  /\ (is_allow (get_extra h m) = true ->
      get_extra (generate_schema h models tds).1 m = get_extra h m).
Proof.
  rewrite generate_schema_heap. split; [|split].
  - intros k Hk. by apply forbid_extras_other_keys.
  - apply forbid_extras_unlisted.
  - intros Ha. rewrite forbid_extras_get. case_decide; [|done].
    unfold forbid_unless_allow. by rewrite Ha.
Qed.

Lemma master_fields_foldl_wf (all : list (pyd_model + typed_dict))
    (acc : list (string * (pyd_model + typed_dict))) :
  dict_wf acc ->
  dict_wf (foldl (fun acc d => dict_set (decl_name d) d acc) acc all).
Proof.
  revert acc. induction all as [|d all IH]; simpl; intros acc Hacc; [done|].
  by apply IH, dict_set_wf.
Qed.

Lemma master_fields_foldl_keep (post : list (pyd_model + typed_dict))
    (acc : list (string * (pyd_model + typed_dict))) (name : string) :
  (forall d, d ∈ post -> decl_name d <> name) ->
  dict_get name (foldl (fun acc d => dict_set (decl_name d) d acc) acc post)
  = dict_get name acc.
Proof.
  revert acc. induction post as [|d post IH]; simpl; intros acc Hpost; [done|].
  rewrite IH by (intros d' Hd'; apply Hpost, elem_of_cons; by right).
  apply dict_get_set_ne, Hpost, elem_of_cons. by left.
Qed.

(** The fields of the aggregate: one per declaration name, and of the
    declarations that share a name the last one in [all_models] is the one
    kept. *)
Theorem master_fields_last_wins
    (pre post : list (pyd_model + typed_dict)) (d : pyd_model + typed_dict) :
  (forall d', d' ∈ post -> decl_name d' <> decl_name d) ->
  dict_get (decl_name d) (master_fields (pre ++ d :: post)) = Some d
  /\ dict_wf (master_fields (pre ++ d :: post)).
Proof.
  intros Hpost. unfold master_fields. split.
  - rewrite foldl_app. simpl. rewrite master_fields_foldl_keep by done.
    apply dict_get_set_eq.
  - apply master_fields_foldl_wf. apply NoDup_nil_2.
Qed.

Lemma master_fields_last_wins_witness :
  dict_get "User"
    (master_fields
       ([inl Reference.User; inl Reference.Order]
        ++ inr (TypedDictCls "User" [("x", FInt)]) :: [inr Reference.Point]))
  = Some (inr (TypedDictCls "User" [("x", FInt)]))
  /\ dict_wf
       (master_fields
          ([inl Reference.User; inl Reference.Order]
           ++ inr (TypedDictCls "User" [("x", FInt)]) :: [inr Reference.Point])).
Proof.
  apply (master_fields_last_wins [inl Reference.User; inl Reference.Order]
           [inr Reference.Point] (inr (TypedDictCls "User" [("x", FInt)]))).
  intros d' Hd'. apply list_elem_of_singleton in Hd' as ->. discriminate.
Defined.

Lemma clean_defs_returns tds (defs : list (string * json)) :
  (clean_defs tds defs).2 = None
  <-> forallb (fun kv => definition_ok (snd kv)) defs = true.
Proof.
  induction defs as [|[k v] defs IH]; simpl; [done|].
  destruct v as [| | | | | |d]; try done.
  destruct (dict_get "title" d) as [t|] eqn:Ht.
  - unfold definition_ok. rewrite bool_decide_eq_true_2 by eauto. simpl.
    pose proof (clean_schema_outcome d (title_is_typeddict t tds)) as Hd.
    destruct (clean_schema d (title_is_typeddict t tds)) as [d' [e|]];
      simpl in Hd.
    + simpl. destruct (properties_ok d); [|done].
      by pose proof (proj2 Hd eq_refl).
    + rewrite (proj1 Hd eq_refl).
      destruct (clean_defs tds defs) as [rest' r]. simpl in *. done.
  - unfold definition_ok.
    rewrite bool_decide_eq_false_2 by (intros [? ?]; congruence). done.
Qed.

Lemma clean_defs_keys tds (defs : list (string * json)) :
  dict_keys (clean_defs tds defs).1 = dict_keys defs.
Proof.
  induction defs as [|[k v] defs IH]; simpl; [done|].
  destruct v as [| | | | | |d]; try done.
  destruct (dict_get "title" d) as [t|]; [|done].
  destruct (clean_schema d (title_is_typeddict t tds)) as [d' [e|]]; [done|].
  destruct (clean_defs tds defs) as [rest' r]. simpl in *. by rewrite IH.
Qed.

(** There is no partial schema: [generate_schema] returns a string exactly
    when [create_model] and reflection succeed and every definition that
    reflection gave is an object that has a title and whose declared
    properties are all objects. *)
Theorem generate_schema_returns_iff h models tds :
  (exists text, (generate_schema h models tds).2 = inr text)
  <-> create_model_raises (forbid_extras h models) "_Master_"
        (master_fields (all_models_of models tds)) = None
      /\ exists raw,
           model_json_schema (forbid_extras h models)
             (master_model_of (all_models_of models tds)) = inr raw
           /\ definitions_ok raw = true.
Proof.
  unfold generate_schema, generate_schema_document, generate_schema_try,
    definitions_ok. simpl.
  destruct (create_model_raises _ _ _) as [e|].
  { split; [by intros [? ?] | by intros [? _]]. }
  destruct (model_json_schema _ _) as [e|raw].
  { split; [by intros [? ?] | by intros (_ & ? & ? & _)]. }
  destruct (dict_get "$defs" raw) as [j|] eqn:Hdefs.
  - destruct j as [| | | | | |defs];
      try (split; [by intros [? ?]
                  | intros (_ & raw' & [= <-] & Hok);
                    by rewrite Hdefs in Hok]).
    pose proof (clean_defs_returns tds defs) as Hret.
    destruct (clean_defs tds defs) as [defs' [e|]]; simpl in Hret.
    + split; [by intros [? ?]|].
      intros (_ & raw' & [= <-] & Hok). rewrite Hdefs in Hok.
      by apply Hret in Hok.
    + split; [|eauto]. intros _. split; [done|]. exists raw.
      rewrite Hdefs. split; [done | by apply Hret].
  - split; [|eauto]. intros _. split; [done|]. exists raw.
    by rewrite Hdefs.
Qed.

(** Cleaning keeps the layout of the document: the keys of the root and
    their order, the value of every root key other than ["$defs"], and the
    names and order of the definitions. *)
Theorem cleaned_document_shape h models tds (doc : list (string * json)) :
  (generate_schema_document h models tds).2 = inr doc ->
  exists raw,
    model_json_schema (forbid_extras h models)
      (master_model_of (all_models_of models tds)) = inr raw
    /\ dict_keys doc = dict_keys raw
    /\ (forall k, k <> "$defs" -> dict_get k doc = dict_get k raw)
    /\ (forall defs, dict_get "$defs" raw = Some (JObj defs) ->
          exists defs', dict_get "$defs" doc = Some (JObj defs')
                        /\ dict_keys defs' = dict_keys defs).
Proof.
  unfold generate_schema_document. simpl.
  intros (raw & Hraw & Hcases)%generate_schema_try_inv.
  exists raw. split; [done|].
  destruct Hcases as [[Hnone ->]|(defs & defs' & Hdefs & Hc & ->)].
  - split; [done|]. split; [done|]. intros defs Hdefs. congruence.
  - split; [apply dict_keys_set_present; eauto|].
    split; [intros k Hk; by apply dict_get_set_ne|].
    intros defs0 Hdefs0. assert (defs0 = defs) as -> by congruence.
    exists defs'. split; [apply dict_get_set_eq|].
    pose proof (clean_defs_keys tds defs) as Hkeys. by rewrite Hc in Hkeys.
Qed.
End UnifierMore.

Lemma cleaned_document_shape_witness :
  dict_keys Reference.cleaned_document
  = ["$defs"; "additionalProperties"; "properties"; "required"; "title"; "type"]
  /\ dict_keys Reference.cleaned_defs = ["Order"; "User"; "Settings"; "Point"].
Proof.
  destruct (@cleaned_document_shape Reference.reference_platform
              Reference.heap0 [Reference.Order; Reference.Settings]
              [Reference.Point] Reference.cleaned_document eq_refl)
    as (raw & Hraw & Hkeys & _ & Hdefs).
  vm_compute in Hraw. injection Hraw as <-.
  split; [exact Hkeys|].
  edestruct Hdefs as (defs' & Hd' & Hk'); [reflexivity|].
  vm_compute in Hd'. injection Hd' as <-. exact Hk'.
Defined.

(* ===================================================================== *)
(** * Further properties of [generate_typescript_defs] *)
(* ===================================================================== *)

Section OrchestratorMore.
Context `{Platform}.

Lemma not_excluded_spec (exclude : list string) (name : string) :
  not_excluded exclude name = true <-> name ∉ exclude.
Proof.
  unfold not_excluded. rewrite negb_true_iff. split.
  - intros Hex Hin. apply not_excluded_name in Hin.
    unfold not_excluded in Hin. apply negb_false_iff in Hin. congruence.
  - intros Hnin. destruct (existsb (String.eqb name) exclude) eqn:Hex; [|done].
    apply existsb_exists in Hex as (x & Hx & ->%String.eqb_eq).
    exfalso. by apply Hnin, list_elem_of_In.
Qed.

Lemma List_filter_sublist {A : Type} (f : A -> bool) (l : list A) :
  sublist (List.filter f l) l.
Proof.
  induction l as [|x l IH]; simpl; [constructor|].
  destruct (f x); by constructor.
Qed.

(** The exclusion filter keeps exactly the declarations whose name is not
    in [exclude], in their order, whether [exclude] is empty or not. *)
Theorem exclusion_keeps_the_rest (exclude : list string)
    (models : list pyd_model) (tds : list typed_dict) :
  (forall m : pyd_model,
     m ∈ exclude_models exclude models <-> m ∈ models /\ pm_name m ∉ exclude)
  /\ (forall td : typed_dict,
        td ∈ exclude_typed_dicts exclude tds
        <-> td ∈ tds /\ td_name td ∉ exclude)
  /\ sublist (exclude_models exclude models) models
  /\ sublist (exclude_typed_dicts exclude tds) tds.
Proof.
  unfold exclude_models, exclude_typed_dicts.
  destruct exclude as [|x xs].
  - split; [|split; [|done]].
    + intros m. split; [|tauto]. intros Hm. split; [done|]. apply not_elem_of_nil.
    + intros td. split; [|tauto]. intros Hm. split; [done|]. apply not_elem_of_nil.
  - split; [|split; [|split]]; try apply List_filter_sublist.
    + intros m. rewrite <- not_excluded_spec, !list_elem_of_In. apply filter_In.
    + intros td. rewrite <- not_excluded_spec, !list_elem_of_In. apply filter_In.
Qed.

(** In schema-only mode the converter plays no part: the result does not
    depend on [json2ts_cmd], no directory is created, and no file other
    than [output] is touched. When the call returns, [output] holds the
    string that [generate_schema] returned. *)
Theorem schema_only_mode (w : world) (module output : string)
    (exclude : list string) (json2ts_cmd : string) :
  let r := generate_typescript_defs w module output exclude json2ts_cmd true in
  (forall cmd', generate_typescript_defs w module output exclude cmd' true = r)
  /\ w_dirs r.1 = w_dirs w
  /\ (forall f, f <> output -> w_files r.1 !! f = w_files w !! f)
  /\ (r.2 = None ->
      exists models0 tds0 schema,
        find_pydantic_models module = inr models0
        /\ find_typed_dicts module = inr tds0
        /\ (generate_schema (w_heap w) (exclude_models exclude models0)
              (exclude_typed_dicts exclude tds0)).2 = inr schema
        /\ w_files r.1 !! output = Some schema).
Proof.
  intros r. unfold r, generate_typescript_defs. cbn [negb andb].
  destruct (find_pydantic_models module) as [e|models0];
    [by repeat split|].
  destruct (find_typed_dicts module) as [e|tds0]; [by repeat split|].
  destruct (generate_schema (w_heap w) (exclude_models exclude models0)
              (exclude_typed_dicts exclude tds0)) as [h' [e|schema]] eqn:Hgen;
    [by repeat split|].
  simpl. split; [done|]. split; [done|]. split.
  - intros f Hf. by rewrite lookup_insert_ne.
  - intros _. exists models0, tds0, schema.
    split; [done|]. split; [done|]. split; [|apply lookup_insert_eq].
    change ((generate_schema (w_heap w) (exclude_models exclude models0)
               (exclude_typed_dicts exclude tds0)).2 = inr schema).
    by rewrite Hgen.
Qed.

(** A call that fails before unification (the converter is not found, or
    discovery raises) raises and leaves the world exactly as it was: no
    file is written and no policy is overridden. *)
Theorem early_failure_changes_nothing (w : world) (module output : string)
    (exclude : list string) (json2ts_cmd : string) (schema_only : bool) :
  (schema_only = false /\ contains_space json2ts_cmd = false
   /\ shutil_which json2ts_cmd = false)
  \/ (exists e, find_pydantic_models module = inl e)
  \/ (exists e, find_typed_dicts module = inl e) ->
  (generate_typescript_defs w module output exclude json2ts_cmd schema_only).1
  = w
  /\ is_Some
       (generate_typescript_defs w module output exclude json2ts_cmd
          schema_only).2.
Proof.
  intros Hcase. unfold generate_typescript_defs.
  destruct (negb schema_only && negb (contains_space json2ts_cmd)
            && negb (shutil_which json2ts_cmd)) eqn:Hcheck; [eauto|].
  destruct Hcase as [(-> & Hs & Hw)|[[e He]|[e He]]].
  - by rewrite Hs, Hw in Hcheck.
  - rewrite He. eauto.
  - rewrite He. destruct (find_pydantic_models module); eauto.
Qed.
End OrchestratorMore.

Lemma early_failure_changes_nothing_witness :
  (@generate_typescript_defs Reference.reference_platform Reference.world0
     "app.models" "out.ts" [] "tsc" false).1 = Reference.world0
  /\ is_Some
       (@generate_typescript_defs Reference.reference_platform Reference.world0
          "app.models" "out.ts" [] "tsc" false).2.
Proof.
  apply (@early_failure_changes_nothing Reference.reference_platform).
  left. repeat split; reflexivity.
Defined.

(* ===================================================================== *)
(** * Properties of model discovery *)
(* ===================================================================== *)

Section DiscoveryFacts.
Implicit Types (mods : gmap nat py_module) (module : py_module)
               (predicate : pyobj -> bool).

Lemma append_assoc (a b c : string) : (a +:+ b) +:+ c = a +:+ (b +:+ c).
Proof.
  induction a as [|x a IH]; [done|]. by rewrite !append_cons, IH.
Qed.

Lemma length_append (a b : string) :
  String.length (a +:+ b) = String.length a + String.length b.
Proof.
  induction a as [|x a IH]; [done|]. rewrite append_cons. simpl. by rewrite IH.
Qed.

Lemma prefix_cons (a b : ascii) (p s : string) :
  String.prefix (String a p) (String b s)
  = if ascii_dec a b then String.prefix p s else false.
Proof. reflexivity. Qed.

Lemma prefix_elim (p s : string) :
  String.prefix p s = true -> exists t, s = p +:+ t.
Proof.
  revert s. induction p as [|a p IH]; intros s.
  - intros _. by exists s.
  - destruct s as [|b s]; [done|]. rewrite prefix_cons.
    destruct (ascii_dec a b) as [->|]; [|done].
    intros (t & ->)%IH. by exists t.
Qed.

Lemma prefix_length (p s : string) :
  String.prefix p s = true -> String.length p <= String.length s.
Proof. intros (t & ->)%prefix_elim. rewrite length_append. lia. Qed.

(** A dotted child of a dotted child is a dotted child. *)
Lemma dotted_child_trans (a b c : string) :
  String.prefix (a +:+ ".") b = true ->
  String.prefix (b +:+ ".") c = true ->
  String.prefix (a +:+ ".") c = true.
Proof.
  intros (t1 & ->)%prefix_elim (t2 & ->)%prefix_elim.
  rewrite (append_assoc ((a +:+ ".") +:+ t1) "." t2).
  rewrite (append_assoc (a +:+ ".") t1). apply prefix_append.
Qed.

Lemma dotted_child_longer (a b : string) :
  String.prefix (a +:+ ".") b = true -> String.length a < String.length b.
Proof.
  intros Hp%prefix_length. rewrite length_append in Hp. simpl in Hp. lia.
Qed.

(** What [is_submodule] accepts. *)
Lemma is_submodule_inv mods (obj : pyobj) (name : string) :
  is_submodule mods obj name = true ->
  exists id sub, obj = OModule id /\ mods !! id = Some sub
                 /\ String.prefix (name +:+ ".") (mod_name sub) = true.
Proof.
  destruct obj as [| | | |id|]; simpl; try done.
  destruct (mods !! id) as [sub|] eqn:Hsub; [|done]. eauto.
Qed.

Lemma getmembers_elem_of module predicate (kv : string * pyobj) :
  kv ∈ getmembers module predicate
  <-> kv ∈ mod_members module /\ predicate (snd kv) = true.
Proof. unfold getmembers. rewrite !list_elem_of_In. apply filter_In. Qed.

Lemma extract_objects_S predicate fuel mods module :
  extract_objects predicate (S fuel) mods module
  = foldl (extend_found mods (extract_objects predicate fuel mods))
      (Some (map snd (getmembers module predicate)))
      (getmembers module
         (fun obj => is_submodule mods obj (mod_name module))).
Proof. reflexivity. Qed.

Lemma foldl_extend_found_None mods rec (l : list (string * pyobj)) :
  foldl (extend_found mods rec) None l = None.
Proof. induction l as [|kv l IH]; simpl; [done | by rewrite IH]. Qed.

Lemma foldl_extend_found_inv mods rec (P : list pyobj -> Prop)
    (l : list (string * pyobj)) (acc r : list pyobj) :
  foldl (extend_found mods rec) (Some acc) l = Some r ->
  P acc ->
  (forall kv a a', kv ∈ l -> P a ->
     extend_found mods rec (Some a) kv = Some a' -> P a') ->
  P r.
Proof.
  revert acc. induction l as [|kv l IH]; cbn [foldl]; intros acc Hfold Hacc Hstep.
  - by injection Hfold as <-.
  - destruct (extend_found mods rec (Some acc) kv) as [a'|] eqn:Hkv.
    + apply (IH a'); [done| |].
      * apply (Hstep kv acc); [apply elem_of_cons; by left | done | done].
      * intros kv' a a'' Hin. apply Hstep, elem_of_cons. by right.
    + by rewrite foldl_extend_found_None in Hfold.
Qed.

Lemma foldl_extend_found_Some mods rec
    (l : list (string * pyobj)) (acc : list pyobj) :
  (forall kv a, kv ∈ l -> is_Some (extend_found mods rec (Some a) kv)) ->
  is_Some (foldl (extend_found mods rec) (Some acc) l).
Proof.
  revert acc. induction l as [|kv l IH]; cbn [foldl]; intros acc Hstep; [eauto|].
  destruct (Hstep kv acc) as [a' Ha']; [apply elem_of_cons; by left|].
  rewrite Ha'. apply IH. intros kv' a Hin. apply Hstep, elem_of_cons. by right.
Qed.

Lemma foldl_extend_found_mono mods rec rec'
    (l : list (string * pyobj)) (acc r : list pyobj) :
  (forall kv a a', kv ∈ l -> extend_found mods rec (Some a) kv = Some a' ->
                   extend_found mods rec' (Some a) kv = Some a') ->
  foldl (extend_found mods rec) (Some acc) l = Some r ->
  foldl (extend_found mods rec') (Some acc) l = Some r.
Proof.
  revert acc. induction l as [|kv l IH]; cbn [foldl]; intros acc Hstep Hfold; [done|].
  destruct (extend_found mods rec (Some acc) kv) as [a'|] eqn:Hkv.
  - rewrite (Hstep kv acc a'); [|apply elem_of_cons; by left|done].
    apply IH; [|done]. intros kv' a a'' Hin. apply Hstep, elem_of_cons.
    by right.
  - by rewrite foldl_extend_found_None in Hfold.
Qed.

(** More fuel does not change a result. *)
Lemma extract_objects_more_fuel predicate mods (fuel : nat) :
  forall module found,
    extract_objects predicate fuel mods module = Some found ->
    extract_objects predicate (S fuel) mods module = Some found.
Proof.
  induction fuel as [|fuel IH]; intros module found; [done|].
  rewrite (extract_objects_S predicate (S fuel)), (extract_objects_S predicate fuel).
  apply foldl_extend_found_mono. intros kv a a' _.
  unfold extend_found. destruct (snd kv) as [| | | |id|]; try done.
  destruct (mods !! id) as [sub|]; [|done].
  destruct (extract_objects predicate fuel mods sub) as [more|] eqn:Hsub; [|done].
  by rewrite (IH _ _ Hsub).
Qed.

Lemma extract_objects_fuel_le predicate mods (fuel fuel' : nat) module found :
  fuel <= fuel' ->
  extract_objects predicate fuel mods module = Some found ->
  extract_objects predicate fuel' mods module = Some found.
Proof.
  induction 1 as [|fuel' Hle IH]; [done|].
  intros Hf. by apply extract_objects_more_fuel, IH.
Qed.

(** Fuel beyond the room left for longer names is enough. *)
Lemma extract_objects_enough predicate mods (bound : nat) :
  (forall id m, mods !! id = Some m -> String.length (mod_name m) <= bound) ->
  forall fuel module,
    bound - String.length (mod_name module) < fuel ->
    is_Some (extract_objects predicate fuel mods module).
Proof.
  intros Hbound. induction fuel as [|fuel IH]; intros module Hfuel; [lia|].
  rewrite extract_objects_S. apply foldl_extend_found_Some.
  intros kv a [_ Hsub]%getmembers_elem_of.
  apply is_submodule_inv in Hsub as (id & sub & Hobj & Hid & Hpre).
  unfold extend_found. rewrite Hobj, Hid.
  apply dotted_child_longer in Hpre. pose proof (Hbound _ _ Hid).
  destruct (IH sub) as [more Hmore]; [lia|]. rewrite Hmore. eauto.
Qed.

(** Where the objects found come from. *)
Lemma extract_objects_provenance predicate mods (fuel : nat) :
  forall module found obj,
    extract_objects predicate fuel mods module = Some found ->
    obj ∈ found ->
    predicate obj = true
    /\ exists m' k,
         (m' = module
          \/ (exists id, mods !! id = Some m')
             /\ String.prefix (mod_name module +:+ ".") (mod_name m') = true)
         /\ (k, obj) ∈ mod_members m'.
Proof.
  induction fuel as [|fuel IH]; intros module found obj; [done|].
  rewrite extract_objects_S. intros Hfold.
  revert obj.
  apply (foldl_extend_found_inv _ _
           (fun found => forall obj, obj ∈ found -> _) _ _ _ Hfold).
  - intros obj ([k o] & -> & [Hin Hp]%getmembers_elem_of)%list_elem_of_fmap.
    split; [done|]. exists module, k. split; [by left | done].
  - intros kv a a' [_ Hsub]%getmembers_elem_of Ha.
    apply is_submodule_inv in Hsub as (id & sub & Hobj & Hid & Hpre).
    unfold extend_found. rewrite Hobj, Hid.
    destruct (extract_objects predicate fuel mods sub) as [more|] eqn:Hmore;
      [|done].
    intros [= <-] obj [Hin|Hin]%elem_of_app; [by apply Ha|].
    destruct (IH _ _ _ Hmore Hin) as (Hp & m' & k & Hm' & Hk).
    split; [done|]. exists m', k. split; [|done]. right.
    destruct Hm' as [->|[Hheap Hpre']]; [eauto|].
    split; [done|]. by eapply dotted_child_trans.
Qed.
End DiscoveryFacts.

Section DiscoveryClaims.
Implicit Types (mods : gmap nat py_module) (module : py_module).

Lemma extract_objects_unique predicate mods (fuel fuel' : nat) module
    (found found' : list pyobj) :
  extract_objects predicate fuel mods module = Some found ->
  extract_objects predicate fuel' mods module = Some found' ->
  found = found'.
Proof.
  intros Hf Hf'. destruct (Nat.le_ge_cases fuel fuel') as [Hle|Hle].
  - pose proof (extract_objects_fuel_le _ _ _ _ _ _ Hle Hf). congruence.
  - pose proof (extract_objects_fuel_le _ _ _ _ _ _ Hle Hf'). congruence.
Qed.

Lemma foldl_extend_found_grows mods rec
    (l : list (string * pyobj)) (acc r : list pyobj) :
  foldl (extend_found mods rec) (Some acc) l = Some r ->
  acc `prefix_of` r
  /\ forall k id sub more,
       (k, OModule id) ∈ l -> mods !! id = Some sub -> rec sub = Some more ->
       forall obj, obj ∈ more -> obj ∈ r.
Proof.
  revert acc. induction l as [|kv l IH]; cbn [foldl]; intros acc Hfold.
  - injection Hfold as <-. split; [done|].
    intros k id sub more Hin. by apply elem_of_nil in Hin.
  - destruct (extend_found mods rec (Some acc) kv) as [a'|] eqn:Hkv;
      [|by rewrite foldl_extend_found_None in Hfold].
    destruct (IH _ Hfold) as (Hpre & Hsub).
    assert (Hacc : acc `prefix_of` a').
    { unfold extend_found in Hkv. destruct (snd kv) as [| | | |id|];
        try (by injection Hkv as <-).
      destruct (mods !! id) as [sub|]; [|by injection Hkv as <-].
      destruct (rec sub) as [more|]; [|done]. injection Hkv as <-.
      by apply prefix_app_r. }
    split; [by etrans|].
    intros k id sub more [Heq|Hin]%elem_of_cons Hid Hrec obj Hobj;
      [|by eapply Hsub].
    subst kv. unfold extend_found in Hkv. simpl in Hkv.
    rewrite Hid, Hrec in Hkv. injection Hkv as <-.
    destruct Hpre as [rest ->]. apply elem_of_app. left.
    apply elem_of_app. by right.
Qed.

(** Discovery always ends, also on a module graph with cycles: a module is
    searched only from a module with a strictly shorter name, so a depth of
    recursion beyond the room that the longest module name leaves is never
    needed, and every depth beyond it gives the same two lists. *)
Theorem discovery_terminates mods module (bound : nat) :
  map_Forall (fun _ m => String.length (mod_name m) <= bound) mods ->
  exists models typed_dicts,
    forall fuel, bound - String.length (mod_name module) < fuel ->
      extract_pydantic_models fuel mods module = Some models
      /\ extract_typed_dicts fuel mods module = Some typed_dicts.
Proof.
  intros Hbound.
  set (fuel0 := S (bound - String.length (mod_name module))).
  destruct (extract_objects_enough is_concrete_pydantic_model mods bound
              Hbound fuel0 module) as [models Hm]; [unfold fuel0; lia|].
  destruct (extract_objects_enough is_typed_dict mods bound
              Hbound fuel0 module) as [tds Ht]; [unfold fuel0; lia|].
  exists models, tds. intros fuel Hfuel.
  split; eapply extract_objects_fuel_le; try eassumption; unfold fuel0; lia.
Qed.

Lemma discovery_terminates_witness :
  exists models typed_dicts,
    forall fuel, 10 - String.length (mod_name ReferenceModules.app) < fuel ->
      extract_pydantic_models fuel ReferenceModules.modules
        ReferenceModules.app = Some models
      /\ extract_typed_dicts fuel ReferenceModules.modules
           ReferenceModules.app = Some typed_dicts.
Proof.
  apply (discovery_terminates ReferenceModules.modules ReferenceModules.app 10).
  apply (@bool_decide_unpack
           (map_Forall (fun _ m => String.length (mod_name m) <= 10)
                       ReferenceModules.modules) _).
  vm_compute. reflexivity.
Defined.

(** Every object that [extract_pydantic_models] returns is a concrete
    model class (never [BaseModel] itself, a TypedDict, a module or a
    value), and it is a member of the module searched or of a module whose
    name starts with that module's name and a dot. *)
Theorem discovered_models_provenance mods module (fuel : nat)
    (found : list pyobj) (obj : pyobj) :
  extract_pydantic_models fuel mods module = Some found ->
  obj ∈ found ->
  (exists m, obj = OModel m)
  /\ exists m' k,
       (m' = module
        \/ (exists id, mods !! id = Some m')
           /\ String.prefix (mod_name module +:+ ".") (mod_name m') = true)
       /\ (k, obj) ∈ mod_members m'.
Proof.
  intros Hf Hin.
  destruct (extract_objects_provenance _ _ _ _ _ _ Hf Hin) as (Hp & Hm').
  split; [|done]. destruct obj; try done. eauto.
Qed.

Lemma discovered_models_provenance_witness :
  (exists m, OModel Reference.Order = OModel m)
  /\ exists m' k,
       (m' = ReferenceModules.app
        \/ (exists id, ReferenceModules.modules !! id = Some m')
           /\ String.prefix (mod_name ReferenceModules.app +:+ ".")
                (mod_name m') = true)
       /\ (k, OModel Reference.Order) ∈ mod_members m'.
Proof.
  apply (discovered_models_provenance ReferenceModules.modules
           ReferenceModules.app 3
           [OModel Reference.User; OModel Reference.Order;
            OModel Reference.User]).
  - reflexivity.
  - apply list_elem_of_further, list_elem_of_here.
Defined.

(** The same for [extract_typed_dicts]: every object returned is a
    TypedDict class from the module searched or from a module in its dotted
    name space. *)
Theorem discovered_typed_dicts_provenance mods module (fuel : nat)
    (found : list pyobj) (obj : pyobj) :
  extract_typed_dicts fuel mods module = Some found ->
  obj ∈ found ->
  (exists td, obj = OTypedDict td)
  /\ exists m' k,
       (m' = module
        \/ (exists id, mods !! id = Some m')
           /\ String.prefix (mod_name module +:+ ".") (mod_name m') = true)
       /\ (k, obj) ∈ mod_members m'.
Proof.
  intros Hf Hin.
  destruct (extract_objects_provenance _ _ _ _ _ _ Hf Hin) as (Hp & Hm').
  split; [|done]. destruct obj; try done. eauto.
Qed.

Lemma discovered_typed_dicts_provenance_witness :
  (exists td, OTypedDict Reference.Point = OTypedDict td)
  /\ exists m' k,
       (m' = ReferenceModules.app
        \/ (exists id, ReferenceModules.modules !! id = Some m')
           /\ String.prefix (mod_name ReferenceModules.app +:+ ".")
                (mod_name m') = true)
       /\ (k, OTypedDict Reference.Point) ∈ mod_members m'.
Proof.
  apply (discovered_typed_dicts_provenance ReferenceModules.modules
           ReferenceModules.app 3 [OTypedDict Reference.Point]).
  - reflexivity.
  - apply list_elem_of_here.
Defined.

(** Discovery misses nothing in reach and filters no duplicate: the list
    returned starts with the module's own concrete models, in member order,
    and it contains everything that the search of a member module in the
    dotted name space returns. *)
Theorem discovery_finds_members mods module (fuel fuel' : nat)
    (found : list pyobj) :
  extract_pydantic_models fuel mods module = Some found ->
  map snd (getmembers module is_concrete_pydantic_model) `prefix_of` found
  /\ forall k id sub more,
       (k, OModule id) ∈ mod_members module ->
       mods !! id = Some sub ->
       String.prefix (mod_name module +:+ ".") (mod_name sub) = true ->
       extract_pydantic_models fuel' mods sub = Some more ->
       forall obj, obj ∈ more -> obj ∈ found.
Proof.
  unfold extract_pydantic_models. destruct fuel as [|fuel]; [done|].
  rewrite extract_objects_S. intros Hfold.
  destruct (foldl_extend_found_grows _ _ _ _ _ Hfold) as (Hpre & Hsub).
  split; [done|].
  intros k id sub more Hin Hid Hprefix Hmore obj Hobj.
  assert (Hkv : (k, OModule id)
                ∈ getmembers module
                    (fun obj => is_submodule mods obj (mod_name module))).
  { apply getmembers_elem_of. split; [done|]. simpl. by rewrite Hid. }
  assert (Hsome : is_Some (extract_objects is_concrete_pydantic_model fuel
                             mods sub)).
  { revert Hfold. generalize (map snd (getmembers module is_concrete_pydantic_model)).
    revert Hkv.
    generalize (getmembers module
                  (fun obj => is_submodule mods obj (mod_name module))).
    intros l. induction l as [|kv l IH]; intros Hkv acc; cbn [foldl].
    - by apply elem_of_nil in Hkv.
    - apply elem_of_cons in Hkv as [<-|Hkv].
      + unfold extend_found at 2. simpl. rewrite Hid.
        destruct (extract_objects _ fuel mods sub); [eauto|].
        by rewrite foldl_extend_found_None.
      + destruct (extend_found mods _ (Some acc) kv) as [a'|];
          [by apply IH | by rewrite foldl_extend_found_None]. }
  destruct Hsome as [more' Hmore'].
  rewrite (extract_objects_unique _ _ _ _ _ _ _ Hmore Hmore') in Hobj.
  by eapply Hsub.
Qed.

Lemma discovery_finds_members_witness :
  map snd (getmembers ReferenceModules.app is_concrete_pydantic_model)
    `prefix_of` [OModel Reference.User; OModel Reference.Order;
                 OModel Reference.User]
  /\ forall k id sub more,
       (k, OModule id) ∈ mod_members ReferenceModules.app ->
       ReferenceModules.modules !! id = Some sub ->
       String.prefix (mod_name ReferenceModules.app +:+ ".") (mod_name sub)
       = true ->
       extract_pydantic_models 2 ReferenceModules.modules sub = Some more ->
       forall obj, obj ∈ more ->
         obj ∈ [OModel Reference.User; OModel Reference.Order;
                OModel Reference.User].
Proof.
  apply (discovery_finds_members ReferenceModules.modules ReferenceModules.app 3 2).
  reflexivity.
Defined.
End DiscoveryClaims.
